(** * PyDaymet: request orchestration, verified against the Python source

    A shallow embedding of [pydaymet/cli.py] and [pydaymet/pydaymet.py].

    - Python exceptions are an explicit [result] monad.
    - Coordinates are rationals ([Q]), the constants being the decimals
      written in the source; only order comparisons are made on them.
    - Dictionaries whose iteration order is observed ([region_bbox]) are
      association lists in insertion order; dictionaries used as maps
      (query parameters, dataset attributes) are [gmap]s.
    - Libraries the package calls (shapely, pandas, xarray, pygeoutils,
      async_retriever) and the modules [core] and [pet] are collaborators:
      a class of operations the functions are parameterised by. *)

From Stdlib Require Import ZArith QArith Lqa List String Ascii Lia.
From stdpp Require Import base option list gmap strings fin_maps pretty.

Open Scope string_scope.

(* ===================================================================== *)
(** * Definitions                                                          *)
(* ===================================================================== *)

(** ** Python runtime: exceptions, strings, timestamps *)

Module Py.

(** The exceptions the modelled code raises or lets through, under the
    names [cli.py] and [pydaymet.py] import them by: [InvalidInputRange] and
    [InvalidInputType] with the arguments they are raised with,
    [ServiceError] of pygeoogc with the error it is raised from, and the
    built-in [ValueError] and [KeyError]. *)
Inductive exn : Type :=
| InvalidInputRange (msg : string)
| InvalidInputType (arg valid_type example : string)
| ServiceError (msg : string) (cause : exn)
| ValueError (msg : string)
| KeyError (key : string)
| OtherError (what : string).

Inductive result (A : Type) : Type :=
| Return (a : A)
| Raise (e : exn).
Arguments Return {A} a.
Arguments Raise {A} e.

Definition bind {A B} (c : result A) (k : A -> result B) : result B :=
  match c with
  | Return a => k a
  | Raise e => Raise e
  end.

#[export] Instance result_ret : MRet result := @Return.
#[export] Instance result_bind : MBind result := fun A B k c => bind c k.

(** [for x in xs: f(x)] collecting the values; the first exception wins. *)
Fixpoint for_each {A B} (f : A -> result B) (xs : list A) : result (list B) :=
  match xs with
  | [] => Return []
  | x :: xs' =>
      match f x with
      | Raise e => Raise e
      | Return y =>
          match for_each f xs' with
          | Raise e => Raise e
          | Return ys => Return (y :: ys)
          end
      end
  end.

(** [try: c  except ValueError as ex: raise h(ex)] *)
Definition try_except_ValueError {A} (c : result A) (h : exn -> exn) : result A :=
  match c with
  | Raise (ValueError m) => Raise (h (ValueError m))
  | other => other
  end.

(** [str(n)] for an integer. *)
Definition str_int (n : Z) : string := pretty n.

(** [str.replace(old, new)]: every non-overlapping occurrence of [old],
    scanning from the left.  [skip] counts the characters of a matched
    occurrence that are still to be passed over. *)
Fixpoint replace_from (old new : string) (skip : nat) (s : string) : string :=
  match s with
  | EmptyString => EmptyString
  | String c s' =>
      match skip with
      | S k => replace_from old new k s'
      | O =>
          if String.prefix old s
          then new ++ replace_from old new (String.length old - 1) s'
          else String c (replace_from old new 0 s')
      end
  end.

Fixpoint intersperse (new s : string) : string :=
  match s with
  | EmptyString => new
  | String c s' => new ++ String c (intersperse new s')
  end.

Definition replace (s old new : string) : string :=
  match old with
  | EmptyString => intersperse new s
  | _ => replace_from old new 0 s
  end.

(** A [pandas.Timestamp], to the second. *)
Record Timestamp : Type := mkTimestamp {
  year : Z; month : Z; day : Z; hour : Z; minute : Z; second : Z
}.

Fixpoint zeros (n : nat) : string :=
  match n with
  | O => EmptyString
  | S k => String "0" (zeros k)
  end.

(** Zero-padded decimal field of [strftime]. *)
Definition pad (width : nat) (n : Z) : string :=
  let digits := str_int n in
  zeros (width - String.length digits) ++ digits.

Definition directive (d : ascii) (t : Timestamp) : string :=
  if Ascii.eqb d "Y" then pad 4 (year t)
  else if Ascii.eqb d "m" then pad 2 (month t)
  else if Ascii.eqb d "d" then pad 2 (day t)
  else if Ascii.eqb d "H" then pad 2 (hour t)
  else if Ascii.eqb d "M" then pad 2 (minute t)
  else if Ascii.eqb d "S" then pad 2 (second t)
  else if Ascii.eqb d "%" then "%"
  else String "%" (String d EmptyString).

(** [t.strftime(fmt)] for the directives above. *)
Fixpoint strftime (fmt : string) (t : Timestamp) : string :=
  match fmt with
  | EmptyString => EmptyString
  | String c rest =>
      if Ascii.eqb c "%" then
        match rest with
        | String d rest' => directive d t ++ strftime rest' t
        | EmptyString => "%"
        end
      else String c (strftime rest t)
  end.

End Py.
Import Py.

(** ** shapely: points, polygons and rectangles *)

Module Shapely.

Record coord : Type := Coord { cx : Q; cy : Q }.

(** [sgeom.box(minx, miny, maxx, maxy)]: an axis-aligned rectangle. *)
Record Box : Type := box { minx : Q; miny : Q; maxx : Q; maxy : Q }.

(** The geometries [_get_region] is typed for.  A polygon is given by the
    vertices of its exterior ring (holes lie inside the ring and play no
    part in containment by a rectangle); an empty vertex list is the empty
    geometry. *)
Inductive Geometry : Type :=
| Point (p : coord)
| Polygon (shell : list coord)
| MultiPolygon (polys : list (list coord)).

Definition vertices (g : Geometry) : list coord :=
  match g with
  | Point p => [p]
  | Polygon shell => shell
  | MultiPolygon polys => concat polys
  end.

Definition Qltb (x y : Q) : bool := negb (Qle_bool y x).

(** The point is in the interior of the rectangle. *)
Definition in_interior (b : Box) (p : coord) : bool :=
  Qltb (minx b) (cx p) && Qltb (cx p) (maxx b) &&
  Qltb (miny b) (cy p) && Qltb (cy p) (maxy b).

(** The point is in the rectangle, boundary included. *)
Definition in_closure (b : Box) (p : coord) : bool :=
  Qle_bool (minx b) (cx p) && Qle_bool (cx p) (maxx b) &&
  Qle_bool (miny b) (cy p) && Qle_bool (cy p) (maxy b).

Definition is_empty (g : Geometry) : bool :=
  match vertices g with [] => true | _ => false end.

(** The rings of a geometry: the ring of a polygon, the rings of the parts
    of a multipolygon; a point counts as a ring of one vertex. *)
Definition rings (g : Geometry) : list (list coord) :=
  match g with
  | Point p => [[p]]
  | Polygon shell => [shell]
  | MultiPolygon polys => polys
  end.

(** Every vertex of the ring is on the line of one and the same side of the
    rectangle.  A ring in the closed rectangle that is so lies flat in that
    side, within the outline. *)
Definition on_side (b : Box) (ring : list coord) : bool :=
  forallb (fun p => Qeq_bool (cx p) (minx b)) ring
  || forallb (fun p => Qeq_bool (cx p) (maxx b)) ring
  || forallb (fun p => Qeq_bool (cy p) (miny b)) ring
  || forallb (fun p => Qeq_bool (cy p) (maxy b)) ring.

(** Some ring of the geometry is not flat in a side of the rectangle. *)
Definition reaches_interior (b : Box) (g : Geometry) : bool :=
  existsb (fun ring => negb (on_side b ring)) (rings g).

(** [b.contains(g)], shapely's predicate for a rectangle [b]: no point of
    [g] lies in the exterior of [b] and the interiors meet.  A point must
    be in the interior.  The rectangle is convex, so a polygon has no point
    in the exterior exactly when every vertex is in the closed rectangle;
    its interior then meets that of the rectangle unless the polygon lies
    flat in one side, all its vertices on the line of that side.  So a
    polygon may touch the outline from the inside, and one that lies in the
    outline is not contained. *)
Definition contains (b : Box) (g : Geometry) : bool :=
  match g with
  | Point p => in_interior b p
  | Polygon _ | MultiPolygon _ =>
      negb (is_empty g) && forallb (in_closure b) (vertices g)
      && reaches_interior b g
  end.

End Shapely.
Import Shapely.

(** ** pydaymet/cli.py *)

Module Cli.

(** The dictionary [region_bbox] of [_get_region], in insertion order. *)
Definition region_bbox : list (string * Box) :=
  [ ("na", box (-136.8989) 6.0761 (-6.1376) 69.077);
    ("hi", box (-160.3055) 17.9539 (-154.7715) 23.5186);
    ("pr", box (-67.9927) 16.8443 (-64.1195) 19.9381) ].

(** [for region, bbox in items: if bbox.contains(geom): return region] *)
Fixpoint first_containing (items : list (string * Box)) (geom : Geometry)
  : option string :=
  match items with
  | [] => None
  | (region, bbox) :: rest =>
      if contains bbox geom then Some region else first_containing rest geom
  end.

Definition outside_msg (gid : string) : string :=
  "Input location with ID of " ++ gid ++ " is outside the Daymet spatial range.".

Definition _get_region (gid : string) (geom : Geometry) : result string :=
  match first_containing region_bbox geom with
  | Some region => Return region
  | None => Raise (InvalidInputRange (outside_msg gid))
  end.

(** [get_region]: one region per (id, geometry) row, or the first failure. *)
Definition get_region (geodf : list (string * Geometry)) : result (list string) :=
  for_each (fun row => _get_region (fst row) (snd row)) geodf.

End Cli.
Import Cli.

(** ** Geometric vocabulary of the specification *)

Section Placement.

Definition pt_strictly_inside (b : Box) (p : coord) : Prop :=
  (minx b < cx p)%Q /\ (cx p < maxx b)%Q /\ (miny b < cy p)%Q /\ (cy p < maxy b)%Q.

Definition pt_within (b : Box) (p : coord) : Prop :=
  (minx b <= cx p)%Q /\ (cx p <= maxx b)%Q /\ (miny b <= cy p)%Q /\ (cy p <= maxy b)%Q.

(** A point of the rectangle's outline. *)
Definition pt_on_boundary (b : Box) (p : coord) : Prop :=
  pt_within b p /\ ~ pt_strictly_inside b p.

(** The geometry is not empty and lies in the open rectangle. *)
Definition strictly_inside (b : Box) (g : Geometry) : Prop :=
  vertices g <> [] /\ Forall (pt_strictly_inside b) (vertices g).

(** The geometry is not empty and lies in the closed rectangle. *)
Definition within_closure (b : Box) (g : Geometry) : Prop :=
  vertices g <> [] /\ Forall (pt_within b) (vertices g).

(** No vertex of the geometry is in the closed rectangle (a geometry
    disjoint from the rectangle is such). *)
Definition outside (b : Box) (g : Geometry) : Prop :=
  Forall (fun p => ~ pt_within b p) (vertices g).

(** The whole geometry lies on the outline of the rectangle: it is in the
    closed rectangle and each of its rings is flat in one side.  A point on
    the outline is such, and so is a polygon or a multipolygon that has
    collapsed onto sides of the rectangle; a polygon that covers an area is
    not, even with every vertex on the outline. *)
Definition lies_on_boundary (b : Box) (g : Geometry) : Prop :=
  within_closure b g /\ Forall (fun ring => on_side b ring = true) (rings g).

(** The three rectangles of [region_bbox], by name. *)
Definition na_box : Box := box (-136.8989) 6.0761 (-6.1376) 69.077.
Definition hi_box : Box := box (-160.3055) 17.9539 (-154.7715) 23.5186.
Definition pr_box : Box := box (-67.9927) 16.8443 (-64.1195) 19.9381.

End Placement.

(** ** pydaymet/pydaymet.py: request builder *)

Module Pydaymet.

Definition DEF_CRS : string := "epsg:4326".
Definition DATE_REQ : string := "%Y-%m-%dT%H:%M:%SZ".

(** The keyword dictionary of one request: [{"params": {...}}]. *)
Abbreviation Params := (gmap string string).
Abbreviation Kwds := (gmap string (gmap string string)).

(** A request descriptor: the URL and its keywords. *)
Abbreviation Request := (string * gmap string (gmap string string))%type.

(** A date window: start and end timestamps. *)
Abbreviation Window := (Timestamp * Timestamp)%type.

(** What the request builder takes from outside: the formatting of a
    float in an f-string, and [ServiceURL().restful.daymet] of pygeoogc. *)
Class Service : Type := {
  float_str : Q -> string;
  daymet_url : string
}.

(** [d[k]] for a dictionary keyed by integers, and by strings. *)
Definition getitem {B} (d : gmap Z B) (k : Z) : result B :=
  match d !! k with
  | Some v => Return v
  | None => Raise (KeyError (str_int k))
  end.

Definition getitem_str {B} (d : gmap string B) (k : string) : result B :=
  match d !! k with
  | Some v => Return v
  | None => Raise (KeyError k)
  end.

Definition _get_filename (region : string) : gmap Z (string -> string) :=
  list_to_map
    [ (1840%Z, fun v => "daily_" ++ region ++ "_" ++ v);
      (1855%Z, fun v => if String.eqb v "prcp"
                        then v ++ "_monttl_" ++ region
                        else v ++ "_monavg_" ++ region);
      (1852%Z, fun v => if String.eqb v "prcp"
                        then v ++ "_annttl_" ++ region
                        else v ++ "_annavg_" ++ region) ].

Section Builder.
Context `{Service}.

(** The URL both builders format:
    [f"{base_url}/daymet_v4_{time_scale[code](v)}_{s.year}.nc"]. *)
Definition file_url (time_scale : gmap Z (string -> string)) (code : Z)
    (v : string) (s : Timestamp) : result string :=
  name ← getitem time_scale code;
  Return (daymet_url ++ "/" ++ str_int code
          ++ "/daymet_v4_" ++ name v ++ "_" ++ str_int (year s) ++ ".nc").

Definition coord_params (lon lat : Q) (v : string) (w : Window) : Params :=
  list_to_map
    [ ("var", v);
      ("longitude", float_str lon);
      ("latitude", float_str lat);
      ("time_start", strftime DATE_REQ (fst w));
      ("time_end", strftime DATE_REQ (snd w));
      ("accept", "csv") ].

(** One group of requests per variable, one request per window in it. *)
Definition _coord_urls (code : Z) (coord : Q * Q) (region : string)
    (variables : list string) (dates : list Window)
  : result (list (list Request)) :=
  let time_scale := _get_filename region in
  let '(lon, lat) := coord in
  for_each (fun v =>
    for_each (fun w : Window =>
      url ← file_url time_scale code v (fst w);
      Return (url, {[ "params" := coord_params lon lat v w ]}))
      dates)
    variables.

Definition grid_params (west south east north : Q) (v : string) (w : Window)
  : Params :=
  list_to_map
    [ ("var", v);
      ("north", float_str north);
      ("west", float_str west);
      ("east", float_str east);
      ("south", float_str south);
      ("disableProjSubset", "on");
      ("horizStride", "1");
      ("time_start", strftime DATE_REQ (fst w));
      ("time_end", strftime DATE_REQ (snd w));
      ("timeStride", "1");
      ("addLatLon", "true");
      ("accept", "netcdf") ].

(** One request per element of [itertools.product(variables, dates)]. *)
Definition _gridded_urls (code : Z) (bounds : Q * Q * Q * Q) (region : string)
    (variables : list string) (dates : list Window)
  : result (list Request) :=
  let time_scale := _get_filename region in
  let '(west, south, east, north) := bounds in
  for_each (fun vw : string * Window =>
    let '(v, w) := vw in
    url ← file_url time_scale code v (fst w);
    Return (url, {[ "params" := grid_params west south east north v w ]}))
    (list_prod variables dates).

End Builder.

(** The naming convention in the words of the specification: the daily
    form for every variable, and for the monthly and annual scales the
    total suffix for [prcp] and the average suffix for any other variable. *)
Inductive Scale : Type := Daily | Monthly | Annual.

Definition scale_of_code (code : Z) : option Scale :=
  if Z.eqb code 1840 then Some Daily
  else if Z.eqb code 1855 then Some Monthly
  else if Z.eqb code 1852 then Some Annual
  else None.

Definition spec_filename (sc : Scale) (region v : string) : string :=
  match sc with
  | Daily => "daily_" ++ region ++ "_" ++ v
  | Monthly =>
      if decide (v = "prcp") then "prcp_monttl_" ++ region
      else v ++ "_monavg_" ++ region
  | Annual =>
      if decide (v = "prcp") then "prcp_annttl_" ++ region
      else v ++ "_annavg_" ++ region
  end.

(** The URL of a request for variable [v] and a window starting at [s],
    with the file named by the convention of the specification. *)
Definition spec_url `{Service} (code : Z) (sc : Scale) (region v : string)
    (s : Timestamp) : string :=
  daymet_url ++ "/" ++ str_int code ++ "/daymet_v4_"
  ++ spec_filename sc region v ++ "_" ++ str_int (year s) ++ ".nc".

(** A timestamp in ISO-8601, UTC, to the second. *)
Definition iso8601_utc (t : Timestamp) : string :=
  pad 4 (year t) ++ "-" ++ pad 2 (month t) ++ "-" ++ pad 2 (day t) ++ "T"
  ++ pad 2 (hour t) ++ ":" ++ pad 2 (minute t) ++ ":" ++ pad 2 (second t) ++ "Z".

(** The grid-mode query parameters as the specification lists them. *)
Definition spec_grid_params `{Service} (west south east north : Q) (v : string)
    (w : Window) : Params :=
  list_to_map
    [ ("var", v);
      ("north", float_str north);
      ("south", float_str south);
      ("east", float_str east);
      ("west", float_str west);
      ("disableProjSubset", "on");
      ("horizStride", "1");
      ("timeStride", "1");
      ("time_start", iso8601_utc (fst w));
      ("time_end", iso8601_utc (snd w));
      ("addLatLon", "true");
      ("accept", "netcdf") ].

Definition spec_grid_keys : gset string :=
  list_to_set
    [ "var"; "north"; "south"; "east"; "west"; "disableProjSubset";
      "horizStride"; "timeStride"; "time_start"; "time_end"; "addLatLon";
      "accept" ].

(** *** pandas and xarray values *)

Abbreviation bytes := (list Byte.byte).

(** A [pandas.DataFrame] with a datetime index: labels and rows. *)
Record DataFrame : Type := mkDataFrame {
  df_index : list Timestamp;
  df_columns : list string;
  df_rows : list (list (option Q))
}.

Record Affine : Type := mkAffine {
  af_a : Q; af_b : Q; af_c : Q; af_d : Q; af_e : Q; af_f : Q
}.

Inductive AttrVal : Type :=
| AttrStr (s : string)
| AttrFloats (xs : list Q)
| AttrAffine (t : Affine).

Record DataArray : Type := mkDataArray {
  da_attrs : gmap string AttrVal;
  da_values : list (option Q)
}.

(** An [xarray.Dataset]: its variables by name, which of them are
    coordinates, and the dataset-level attributes. *)
Record Dataset : Type := mkDataset {
  ds_variables : gmap string DataArray;
  ds_coord_names : gset string;
  ds_attrs : gmap string AttrVal
}.

(** [list(ds)]: the names of the data variables. *)
Definition data_vars (ds : Dataset) : list string :=
  elements (dom (ds_variables ds) ∖ ds_coord_names ds).

(** [ds[name].attrs[key] = val]; the attributes are shared with the
    dataset's variable, so the dataset sees the assignment. *)
Definition set_var_attr (name key : string) (val : AttrVal) (ds : Dataset)
  : Dataset :=
  mkDataset
    (alter (fun da => mkDataArray (<[key := val]> (da_attrs da)) (da_values da))
           name (ds_variables ds))
    (ds_coord_names ds)
    (ds_attrs ds).

(** [ds.attrs[key] = val] *)
Definition set_attr (key : string) (val : AttrVal) (ds : Dataset) : Dataset :=
  mkDataset (ds_variables ds) (ds_coord_names ds) (<[key := val]> (ds_attrs ds)).

(** [ds.drop_vars(names)]: a [ValueError] when a name is not a variable of
    the dataset. *)
Definition drop_vars (names : list string) (ds : Dataset) : result Dataset :=
  if forallb (fun n => bool_decide (is_Some (ds_variables ds !! n))) names
  then Return (mkDataset (foldr delete (ds_variables ds) names)
                         (ds_coord_names ds ∖ list_to_set names)
                         (ds_attrs ds))
  else Raise (ValueError
                "One or more of the specified variables cannot be found in this dataset").

(** [sep.join(parts)] *)
Fixpoint join (sep : string) (parts : list string) : string :=
  match parts with
  | [] => EmptyString
  | [x] => x
  | x :: rest => x ++ sep ++ join sep rest
  end.

(** *** Arguments of the entry points *)

(** [dates]: a (start, end) tuple, or a year or list of years. *)
Inductive Dates : Type :=
| DateTuple (start stop : string)
| YearList (years : list Z).

(** [geometry] of [get_bygeom]: a polygon or multipolygon, or a bounding
    box given as a tuple. *)
Inductive GeomArg : Type :=
| GeomShape (g : Geometry)
| GeomBounds (b : Q * Q * Q * Q).

Abbreviation SSL := (option bool).
Abbreviation PetParams := (option (gmap string Q)).

(** What the entry points read of a [core.Daymet] object. *)
Record Daymet : Type := mkDaymet {
  daymet_region : string;
  daymet_variables : list string;
  daymet_time_codes : gmap string Z;
  daymet_units : list (string * string);
  daymet_region_bbox : gmap string Box;
  daymet_invalid_bbox_msg : string
}.

(** The operations the entry points call and this file does not define:
    the class [Daymet] of [core], [potential_et] of [pet], the remote
    archive, and functions of pygeoogc, pygeoutils, shapely, pandas and
    xarray. *)
Class Collaborators : Type := {
  collab_service :: Service;
  Daymet_init : option (list string) -> option string -> string -> string
                -> result Daymet;
  check_dates : Daymet -> Dates -> result unit;
  dates_tolist : Daymet -> string * string -> result (list Window);
  years_tolist : Daymet -> list Z -> result (list Window);
  match_crs : list (Q * Q) -> string -> string -> result (list (Q * Q));
  geo2polygon : GeomArg -> string -> string -> result Geometry;
  intersects : Geometry -> Box -> bool;
  bounds : Geometry -> Q * Q * Q * Q;
  get_transform : Dataset -> string * string -> result (Affine * Z * Z);
  xarray_geomask : Dataset -> Geometry -> string -> result Dataset;
  fetch : string -> Kwds -> SSL -> result bytes;
  read_csv : bytes -> result DataFrame;
  concat_rows : list DataFrame -> result DataFrame;
  concat_columns : list DataFrame -> result DataFrame;
  open_mfdataset : list bytes -> result Dataset;
  potential_et_point : DataFrame -> Q * Q -> string -> PetParams
                       -> result DataFrame;
  potential_et_grid : Dataset -> string -> PetParams -> result Dataset
}.

Section EntryPoints.
Context `{Collaborators}.

(** *** The transport *)

(** Modelled from the spec: the transport collaborator [ar.retrieve] of
    async_retriever, which is not part of this repository.  Workers
    finish in the completion order [sched] (indices into the request
    list); each writes its payload into the buffer slot addressed by the
    position of its request; a failing fetch aborts the batch. *)
Fixpoint run_workers (reqs : list Request) (ssl : SSL) (sched : list nat)
    (buf : list (option bytes)) : result (list (option bytes)) :=
  match sched with
  | [] => Return buf
  | i :: rest =>
      match reqs !! i with
      | Some (url, kwds) =>
          r ← fetch url kwds ssl;
          run_workers reqs ssl rest (<[i := Some r]> buf)
      | None => run_workers reqs ssl rest buf
      end
  end.

(** Modelled from the spec: the payloads are handed back by position, in
    the order of the request list. *)
Definition retrieve (sched : list nat) (urls : list string) (kwds : list Kwds)
    (ssl : SSL) : result (list bytes) :=
  let reqs := zip urls kwds in
  buf ← run_workers reqs ssl sched (replicate (length reqs) None);
  for_each (fun slot : option bytes =>
              match slot with
              | Some r => Return r
              | None => Raise (OtherError "TimeoutError")
              end) buf.

(** *** get_bycoords *)

(** A group transposed with [zip] and unpacked as [u, k]: its URLs and
    its keywords; an empty group has nothing to unpack. *)
Definition unzip_requests (u : list Request)
  : result (list string * list Kwds) :=
  match u with
  | [] => Raise (ValueError "not enough values to unpack (expected 2, got 0)")
  | _ => Return (u.*1, u.*2)
  end.

Definition dates_itr (daymet : Daymet) (dates : Dates) : result (list Window) :=
  match dates with
  | DateTuple start stop => dates_tolist daymet (start, stop)
  | YearList years => years_tolist daymet years
  end.

(** Lines 103-121: validation and the request plan. *)
Definition plan_bycoords (coords : list Q) (dates : Dates) (crs : string)
    (variables : option (list string)) (region time_scale : string)
    (pet : option string) : result (Q * Q * list (list Request)) :=
  daymet ← Daymet_init variables pet time_scale region;
  _ ← check_dates daymet dates;
  windows ← dates_itr daymet dates;
  coord ← match coords with
          | [lon; lat] => Return (lon, lat)
          | _ => Raise (InvalidInputType "coords" "tuple" "(lon, lat)")
          end;
  matched ← match_crs [coord] crs DEF_CRS;
  coord ← match matched with
          | c :: _ => Return c
          | [] => Raise (OtherError "IndexError")
          end;
  bbox ← getitem_str (daymet_region_bbox daymet) region;
  if negb (contains bbox (Point (Coord (fst coord) (snd coord))))
  then Raise (InvalidInputRange (daymet_invalid_bbox_msg daymet))
  else
    code ← getitem_str (daymet_time_codes daymet) time_scale;
    url_kwds ← _coord_urls code coord (daymet_region daymet)
                 (daymet_variables daymet) windows;
    Return (coord, url_kwds).

(** The inner [pd.concat]: the payloads of one variable, decoded and
    stacked in the order [retrieve] hands them back. *)
Definition fetch_group (sched : list nat) (ssl : SSL) (group : list Request)
  : result DataFrame :=
  '(u, k) ← unzip_requests group;
  payloads ← retrieve sched u k ssl;
  frames ← for_each read_csv payloads;
  concat_rows frames.

Fixpoint for_each_from {A B} (i : nat) (f : nat -> A -> result B)
    (xs : list A) : result (list B) :=
  match xs with
  | [] => Return []
  | x :: xs' =>
      y ← f i x;
      ys ← for_each_from (S i) f xs';
      Return (y :: ys)
  end.

(** Lines 122-134: one [retrieve] call per variable group, in plan
    order, then the outer [pd.concat(..., axis=1)].  [scheds i] is the
    completion order of the fetches of the [i]-th call. *)
Definition assemble (scheds : nat -> list nat) (ssl : SSL)
    (url_kwds : list (list Request)) : result DataFrame :=
  series ← for_each_from 0 (fun i group => fetch_group (scheds i) ssl group)
             url_kwds;
  concat_columns series.

(** The double-quote character, and the one-character string of it. *)
Definition dquote_char : ascii := ascii_of_nat 34.
Definition dquote : string := String dquote_char EmptyString.

(** Line 135, for one label. *)
Definition normalize_label (c : string) : string :=
  replace (replace c ("[unit=" ++ dquote) " (") (dquote ++ "]") ")".

(** [df.rename(columns={old: new})] *)
Definition rename_column (old new : string) (df : DataFrame) : DataFrame :=
  mkDataFrame (df_index df)
              (map (fun c => if String.eqb c old then new else c) (df_columns df))
              (df_rows df).

(** Lines 135-138. *)
Definition normalize_columns (clm : DataFrame) : DataFrame :=
  let clm := mkDataFrame (df_index clm) (map normalize_label (df_columns clm))
                         (df_rows clm) in
  if bool_decide ("prcp (mm)" ∈ df_columns clm)
  then rename_column "prcp (mm)" "prcp (mm/day)" clm
  else clm.

(** Line 140: the index re-read from its ["%Y-%m-%d"] rendering. *)
Definition to_day (t : Timestamp) : Timestamp :=
  mkTimestamp (year t) (month t) (day t) 0 0 0.

Definition reindex_days (clm : DataFrame) : DataFrame :=
  mkDataFrame (map to_day (df_index clm)) (df_columns clm) (df_rows clm).

Definition get_bycoords (scheds : nat -> list nat)
    (coords : list Q) (dates : Dates) (crs : string)
    (variables : option (list string)) (region time_scale : string)
    (pet : option string) (pet_params : PetParams) (ssl : SSL)
  : result DataFrame :=
  '(coord, url_kwds) ← plan_bycoords coords dates crs variables region
                          time_scale pet;
  clm ← assemble scheds ssl url_kwds;
  let clm := reindex_days (normalize_columns clm) in
  match pet with
  | Some method => potential_et_point clm coord method pet_params
  | None => Return clm
  end.

(** *** get_bygeom *)

(** Lines 218-239: validation and the request plan. *)
Definition plan_bygeom (geometry : GeomArg) (dates : Dates) (crs : string)
    (variables : option (list string)) (region time_scale : string)
    (pet : option string)
  : result (Daymet * Geometry * list string * list Kwds) :=
  daymet ← Daymet_init variables pet time_scale region;
  _ ← check_dates daymet dates;
  windows ← dates_itr daymet dates;
  _geometry ← geo2polygon geometry crs DEF_CRS;
  bbox ← getitem_str (daymet_region_bbox daymet) region;
  if negb (intersects _geometry bbox)
  then Raise (InvalidInputRange (daymet_invalid_bbox_msg daymet))
  else
    code ← getitem_str (daymet_time_codes daymet) time_scale;
    reqs ← _gridded_urls code (bounds _geometry) (daymet_region daymet)
             (daymet_variables daymet) windows;
    '(urls, kwds) ← unzip_requests reqs;
    Return (daymet, _geometry, urls, kwds).

Definition service_msg : string :=
  "The service did NOT process your request successfully. "
  ++ "Check your inputs and try again.".

(** Lines 241-255: the fetches and the merge, under the [try]. *)
Definition fetch_and_merge (sched : list nat) (urls : list string)
    (kwds : list Kwds) (ssl : SSL) : result Dataset :=
  try_except_ValueError
    (payloads ← retrieve sched urls kwds ssl; open_mfdataset payloads)
    (fun ex => ServiceError service_msg ex).

Definition daymet_crs : string :=
  join " "
    [ "+proj=lcc"; "+lat_1=25"; "+lat_2=60"; "+lat_0=42.5"; "+lon_0=-100";
      "+x_0=0"; "+y_0=0"; "+ellps=WGS84"; "+units=km"; "+no_defs" ].

(** Lines 257-259. *)
Definition attach_units (units : list (string * string)) (clm : Dataset)
  : Dataset :=
  foldl (fun ds kv =>
           if bool_decide (is_Some (ds_variables ds !! fst kv))
           then set_var_attr (fst kv) "units" (AttrStr (snd kv)) ds
           else ds)
        clm units.

(** Lines 257-278: units, the grid-mapping variable dropped, and the
    projection and nodata attributes of the dataset. *)
Definition label_grid (units : list (string * string)) (clm : Dataset)
  : result Dataset :=
  let clm := attach_units units clm in
  clm ← drop_vars ["lambert_conformal_conic"] clm;
  let clm := set_attr "crs" (AttrStr daymet_crs) clm in
  Return (set_attr "nodatavals" (AttrFloats [0%Q]) clm).

(** Lines 257-281: the dataset-level metadata. *)
Definition set_grid_metadata (units : list (string * string)) (clm : Dataset)
  : result Dataset :=
  clm ← label_grid units clm;
  '(transform, _, _) ← get_transform clm ("y", "x");
  let clm := set_attr "transform" (AttrAffine transform) clm in
  Return (set_attr "res" (AttrFloats [af_a transform; af_e transform]) clm).

(** Lines 288-289, for one data variable. *)
Definition copy_metadata (ds : Dataset) (v : string) : Dataset :=
  set_var_attr v "nodatavals" (AttrFloats [0%Q])
    (set_var_attr v "crs" (AttrStr daymet_crs) ds).

(** Lines 286-289: the metadata copied onto each data variable. *)
Definition propagate_metadata (clm : Dataset) : Dataset :=
  foldl copy_metadata clm (data_vars clm).

(** Lines 257-289: everything between the merge and the mask. *)
Definition post_merge (daymet : Daymet) (pet : option string)
    (pet_params : PetParams) (clm : Dataset) : result Dataset :=
  clm ← set_grid_metadata (daymet_units daymet) clm;
  clm ← match pet with
        | Some method => potential_et_grid clm method pet_params
        | None => Return clm
        end;
  Return (propagate_metadata clm).

Definition get_bygeom (sched : list nat)
    (geometry : GeomArg) (dates : Dates) (crs : string)
    (variables : option (list string)) (region time_scale : string)
    (pet : option string) (pet_params : PetParams) (ssl : SSL)
  : result Dataset :=
  '(daymet, _geometry, urls, kwds) ← plan_bygeom geometry dates crs variables
                                       region time_scale pet;
  clm ← fetch_and_merge sched urls kwds ssl;
  clm ← post_merge daymet pet pet_params clm;
  xarray_geomask clm _geometry DEF_CRS.

(** *** Re-assembly in the words of the specification *)

(** The series of one variable: the payloads of its requests, taken in
    the order of the plan, decoded and stacked. *)
Definition series_in_plan_order (ssl : SSL) (group : list Request)
  : result DataFrame :=
  _ ← unzip_requests group;
  payloads ← for_each (fun r : Request => fetch (fst r) (snd r) ssl) group;
  frames ← for_each read_csv payloads;
  concat_rows frames.

(** The whole table: the series of the variables in plan order, side by
    side. *)
Definition assemble_in_plan_order (ssl : SSL) (url_kwds : list (list Request))
  : result DataFrame :=
  series ← for_each (series_in_plan_order ssl) url_kwds;
  concat_columns series.

End EntryPoints.

(** A data array that carries the projection and the nodata value. *)
Definition has_metadata (da : DataArray) : Prop :=
  da_attrs da !! "crs" = Some (AttrStr daymet_crs)
  /\ da_attrs da !! "nodatavals" = Some (AttrFloats [0%Q]).

(** A completion order of [n] concurrent fetches: every fetch finishes,
    once, in some order. *)
Definition completion_order (sched : list nat) (n : nat) : Prop :=
  sched ≡ₚ seq 0 n.

(** The payload the archive serves for a request. *)
Definition payload_of `{Collaborators} (ssl : SSL) (rq : Request) : bytes :=
  match fetch (fst rq) (snd rq) ssl with
  | Return payload => payload
  | Raise _ => []
  end.

(** *** Column labels in the words of the specification *)

Fixpoint has_char (c : ascii) (s : string) : bool :=
  match s with
  | EmptyString => false
  | String c' s' => Ascii.eqb c c' || has_char c s'
  end.

(** A variable name or unit: text without the bracket and the quote that
    delimit the unit in a raw label. *)
Definition plain (s : string) : Prop :=
  has_char "[" s = false /\ has_char dquote_char s = false.

(** The raw label: the name, then the unit between [[unit="] and ["]]. *)
Definition raw_label (name u : string) : string :=
  name ++ "[unit=" ++ dquote ++ u ++ dquote ++ "]".

(** The label after lines 137-138. *)
Definition final_label (c : string) : string :=
  if String.eqb c "prcp (mm)" then "prcp (mm/day)" else c.

(** The normalized label [name (u)]. *)
Definition normalized_label (name u : string) : string :=
  name ++ " (" ++ u ++ ")".

End Pydaymet.
Import Pydaymet.

(** ** A worked configuration

    A small stand-in for the archive and the libraries, on which the entry
    points run to a value: every variable is served, the payload of a
    request names its variable, and payloads of unlike sizes do not merge. *)

Module Demo.

Definition demo_float_str (q : Q) : string :=
  str_int (Qnum q) ++ "/" ++ str_int (Zpos (Qden q)).

Definition demo_service : Service :=
  {| float_str := demo_float_str;
     daymet_url := "https://thredds.daac.ornl.gov/thredds/ncss/ornl-daac" |}.

Definition year_window (y : Z) : Window :=
  (mkTimestamp y 1 1 0 0 0, mkTimestamp y 12 31 0 0 0).

Definition windows_2001_2003 : list Window :=
  [year_window 2001; year_window 2002; year_window 2003].

Definition demo_daymet (variables : option (list string)) (region : string)
  : Daymet :=
  mkDaymet region
           (default ["prcp"; "tmin"] variables)
           (list_to_map [("daily", 1840%Z); ("monthly", 1855%Z); ("annual", 1852%Z)])
           [("prcp", "mm/day"); ("tmin", "degrees C")]
           (list_to_map region_bbox)
           "Input geometry is outside the Daymet spatial range.".

Definition demo_polygon (arg : GeomArg) : Geometry :=
  match arg with
  | GeomShape g => g
  | GeomBounds (w, s, e, n) => Polygon [Coord w s; Coord e s; Coord e n; Coord w n]
  end.

Definition demo_bounds (g : Geometry) : Q * Q * Q * Q :=
  match vertices g with
  | [] => (0%Q, 0%Q, 0%Q, 0%Q)
  | p :: ps =>
      foldl (fun acc q =>
               let '(w, s, e, n) := acc in
               (if Qle_bool (cx q) w then cx q else w,
                if Qle_bool (cy q) s then cy q else s,
                if Qle_bool e (cx q) then cx q else e,
                if Qle_bool n (cy q) then cy q else n))
            (cx p, cy p, cx p, cy p) ps
  end.

Definition demo_payload (kwds : Kwds) : bytes :=
  match kwds !! "params" ≫= (fun params => params !! "var") with
  | Some v => list_byte_of_string v
  | None => []
  end.

Definition demo_frame (payload : bytes) : DataFrame :=
  mkDataFrame [mkTimestamp 2001 1 1 12 0 0]
              [raw_label (string_of_list_byte payload) "mm"]
              [[Some 1%Q]].

Definition demo_concat_rows (frames : list DataFrame) : result DataFrame :=
  match frames with
  | [] => Raise (ValueError "No objects to concatenate")
  | f :: _ =>
      Return (mkDataFrame (mjoin (map df_index frames)) (df_columns f)
                          (mjoin (map df_rows frames)))
  end.

Definition demo_concat_columns (frames : list DataFrame) : result DataFrame :=
  match frames with
  | [] => Raise (ValueError "No objects to concatenate")
  | f :: _ =>
      Return (mkDataFrame (df_index f) (mjoin (map df_columns frames))
                          (df_rows f))
  end.

Definition demo_dataset : Dataset :=
  mkDataset
    (list_to_map
       [ ("prcp", mkDataArray ∅ [Some 1%Q]);
         ("lambert_conformal_conic", mkDataArray ∅ []);
         ("x", mkDataArray ∅ [Some 0%Q]);
         ("y", mkDataArray ∅ [Some 0%Q]);
         ("time", mkDataArray ∅ [Some 0%Q]) ])
    (list_to_set ["x"; "y"; "time"])
    ∅.

Definition demo_open_mfdataset (payloads : list bytes) : result Dataset :=
  match payloads with
  | [] => Raise (OtherError "OSError")
  | p :: ps =>
      if forallb (fun q => Nat.eqb (length q) (length p)) ps
      then Return demo_dataset
      else Raise (ValueError "conflicting sizes for dimension")
  end.

Definition demo : Collaborators :=
  {| collab_service := demo_service;
     Daymet_init := fun variables _ _ region => Return (demo_daymet variables region);
     check_dates := fun _ _ => Return tt;
     dates_tolist := fun _ _ => Return [year_window 2001];
     years_tolist := fun _ years => Return (map year_window years);
     match_crs := fun pts _ _ => Return pts;
     geo2polygon := fun arg _ _ => Return (demo_polygon arg);
     intersects := fun g b => existsb (in_closure b) (vertices g);
     bounds := demo_bounds;
     get_transform := fun _ _ => Return (mkAffine 1 0 0 0 (-1) 0, 1%Z, 1%Z);
     xarray_geomask := fun ds _ _ => Return ds;
     fetch := fun _ kwds _ => Return (demo_payload kwds);
     read_csv := fun payload => Return (demo_frame payload);
     concat_rows := demo_concat_rows;
     concat_columns := demo_concat_columns;
     open_mfdataset := demo_open_mfdataset;
     potential_et_point := fun df _ _ _ => Return df;
     potential_et_grid := fun ds _ _ => Return ds |}.

(** A point request: two variables over two years. *)
Definition point_variables : list string := ["prcp"; "tmin"].
Definition point_years : list Z := [2001%Z; 2002%Z].
Definition point_coord : Q * Q := ((-100)%Q, 40%Q).

Definition point_plan : list (list Request) :=
  match @_coord_urls demo_service 1840 point_coord "na" point_variables
          (map year_window point_years) with
  | Return groups => groups
  | Raise _ => []
  end.

Definition point_table (scheds : nat -> list nat) : DataFrame :=
  match @assemble demo scheds None point_plan with
  | Return clm => clm
  | Raise _ => mkDataFrame [] [] []
  end.

(** A grid request whose two payloads have unlike sizes. *)
Definition grid_bounds : Q * Q * Q * Q := ((-70)%Q, 45%Q, (-69)%Q, 46%Q).
Definition grid_variables : list string := ["prcp"; "vp"].

Definition grid_plan : list Request :=
  match @_gridded_urls demo_service 1840 grid_bounds "na" grid_variables
          [year_window 2010] with
  | Return reqs => reqs
  | Raise _ => []
  end.

End Demo.
Import Demo.

(** ** pydaymet/cli.py: the required columns of a table *)

Module CliFrames.

(** A data frame as its labelled columns, in order; [Cell] is the type of
    the values. *)
Abbreviation Table Cell := (list (string * list Cell)).

(** What [get_target_df] does: it returns a frame, or raises
    [MissingItems(missing)]. *)
Inductive target_df_result (Cell : Type) : Type :=
| Selected (tdf : Table Cell)
| RaiseMissingItems (missing : list string).
Arguments Selected {Cell} tdf.
Arguments RaiseMissingItems {Cell} missing.

Definition labels {Cell} (tdf : Table Cell) : list string := map fst tdf.

(** [c in tdf]: [c] is a column label. *)
Definition has_column {Cell} (tdf : Table Cell) (c : string) : bool :=
  existsb (String.eqb c) (labels tdf).

(** [tdf[req_cols]]: for each requested label in turn, the columns that
    carry it. *)
Definition select_columns {Cell} (tdf : Table Cell) (req_cols : list string)
  : Table Cell :=
  flat_map (fun c => List.filter (fun kv => String.eqb (fst kv) c) tdf) req_cols.

Definition get_target_df {Cell} (tdf : Table Cell) (req_cols : list string)
  : target_df_result Cell :=
  let missing := List.filter (fun c => negb (has_column tdf c)) req_cols in
  if Nat.ltb 0 (length missing)
  then RaiseMissingItems missing
  else Selected (select_columns tdf req_cols).

End CliFrames.
Import CliFrames.

(** ** Ranges and further worked values *)

(** A timestamp pandas can hold, with calendar fields in range. *)
Definition calendar_timestamp (t : Timestamp) : Prop :=
  (1677 <= year t <= 2262)%Z /\ (1 <= month t <= 12)%Z /\ (1 <= day t <= 31)%Z
  /\ (0 <= hour t <= 23)%Z /\ (0 <= minute t <= 59)%Z /\ (0 <= second t <= 59)%Z.

(** [ds'] is [ds] but for the attributes [keys] of its variables: the same
    variables and coordinates, the same values, and every other attribute
    of every variable as it was. *)
Definition metadata_only (keys : list string) (ds ds' : Dataset) : Prop :=
  ds_coord_names ds' = ds_coord_names ds
  /\ ds_attrs ds' = ds_attrs ds
  /\ forall v,
       match ds_variables ds !! v, ds_variables ds' !! v with
       | Some da, Some da' =>
           da_values da' = da_values da
           /\ forall key, ~ In key keys -> da_attrs da' !! key = da_attrs da !! key
       | None, None => True
       | _, _ => False
       end.

(** A table of three sites, the second of them in the Gulf of Guinea. *)
Definition sample_rows : list (string * Geometry) :=
  [ ("boulder", Point (Coord (-105.27) 40.01));
    ("null-island", Point (Coord 0 0));
    ("hilo", Point (Coord (-155.09) 19.72)) ].

(** A frame with one column more than the point command requires, in
    another order. *)
Definition sample_table : Table nat :=
  [ ("lat", [40%nat]); ("note", [0%nat]); ("id", [1%nat]); ("end", [3%nat]);
    ("lon", [105%nat]); ("start", [2%nat]) ].

Definition point_columns : list string := ["id"; "start"; "end"; "lon"; "lat"].

(** A frame as the archive labels it. *)
Definition raw_frame : DataFrame :=
  mkDataFrame [mkTimestamp 2001 1 1 12 0 0]
              [raw_label "prcp" "mm"; raw_label "tmin" "degrees C"]
              [[Some 1%Q; Some 2%Q]].

(** A merged dataset without the grid-mapping variable. *)
Definition bare_dataset : Dataset :=
  mkDataset
    (list_to_map
       [ ("prcp", mkDataArray ∅ [Some 1%Q]);
         ("x", mkDataArray ∅ [Some 0%Q]);
         ("y", mkDataArray ∅ [Some 0%Q]) ])
    (list_to_set ["x"; "y"])
    ∅.

(** The worked configuration, but for a merge that yields [bare_dataset]. *)
Definition demo_bare : Collaborators :=
  {| collab_service := demo_service;
     Daymet_init := @Daymet_init demo;
     check_dates := @check_dates demo;
     dates_tolist := @dates_tolist demo;
     years_tolist := @years_tolist demo;
     match_crs := @match_crs demo;
     geo2polygon := @geo2polygon demo;
     intersects := @intersects demo;
     bounds := @bounds demo;
     get_transform := @get_transform demo;
     xarray_geomask := @xarray_geomask demo;
     fetch := @fetch demo;
     read_csv := @read_csv demo;
     concat_rows := @concat_rows demo;
     concat_columns := @concat_columns demo;
     open_mfdataset := fun _ => Return bare_dataset;
     potential_et_point := @potential_et_point demo;
     potential_et_grid := @potential_et_grid demo |}.

(** A grid request for one variable, whose payloads merge. *)
Definition grid_plan_prcp : list Request :=
  match @_gridded_urls demo_service 1840 grid_bounds "na" ["prcp"]
          [year_window 2010] with
  | Return reqs => reqs
  | Raise _ => []
  end.

(** The dataset the worked configuration hands to the mask. *)
Definition demo_normalized : Dataset :=
  match @post_merge demo (demo_daymet None "na") None None demo_dataset with
  | Return clm => clm
  | Raise _ => demo_dataset
  end.

(* ===================================================================== *)
(** * Theorems                                                             *)
(* ===================================================================== *)

Section RegionResolver.

Lemma Qltb_lt x y : Qltb x y = true <-> (x < y)%Q.
Proof.
  unfold Qltb. rewrite negb_true_iff.
  destruct (Qle_bool y x) eqn:E.
  - apply Qle_bool_iff in E. split; [discriminate | intros H; lra].
  - split; [intros _ | reflexivity].
    destruct (Qlt_le_dec x y) as [H | H]; [exact H |].
    apply Qle_bool_iff in H. congruence.
Qed.

Lemma in_interior_spec b p : in_interior b p = true <-> pt_strictly_inside b p.
Proof.
  unfold in_interior, pt_strictly_inside.
  rewrite !andb_true_iff, !Qltb_lt. tauto.
Qed.

Lemma in_closure_spec b p : in_closure b p = true <-> pt_within b p.
Proof.
  unfold in_closure, pt_within.
  rewrite !andb_true_iff, !Qle_bool_iff. tauto.
Qed.

Lemma strictly_inside_vertex b g :
  strictly_inside b g -> exists p, In p (vertices g) /\ pt_strictly_inside b p.
Proof.
  intros [Hne Hall]. destruct (vertices g) as [| v vs]; [congruence |].
  exists v. split; [now left | now inversion Hall].
Qed.

Lemma vertex_in_ring g v :
  In v (vertices g) -> exists ring, In ring (rings g) /\ In v ring.
Proof.
  destruct g as [p | shell | polys]; cbn [vertices rings].
  - intros Hv. exists [p]. split; [now left | exact Hv].
  - intros Hv. exists shell. split; [now left | exact Hv].
  - intros Hv. apply in_concat in Hv as (ring & Hr & Hv). now exists ring.
Qed.

Lemma on_side_strict b ring v :
  In v ring -> pt_strictly_inside b v -> on_side b ring = false.
Proof.
  intros Hin (Hx0 & Hx1 & Hy0 & Hy1). unfold on_side.
  assert (Hoff : forall (f : coord -> Q) (edge : Q),
             ~ (f v == edge)%Q ->
             forallb (fun p => Qeq_bool (f p) edge) ring = false).
  { intros f edge Hne.
    destruct (forallb (fun p => Qeq_bool (f p) edge) ring) eqn:E; [| reflexivity].
    rewrite forallb_forall in E. specialize (E v Hin).
    apply Qeq_bool_iff in E. contradiction. }
  rewrite (Hoff cx (minx b)), (Hoff cx (maxx b)), (Hoff cy (miny b)),
          (Hoff cy (maxy b)); [reflexivity | | | |]; intros E; lra.
Qed.

Lemma reaches_interior_strict b g :
  strictly_inside b g -> reaches_interior b g = true.
Proof.
  intros Hin. destruct (strictly_inside_vertex b g Hin) as (v & Hv & Hs).
  destruct (vertex_in_ring g v Hv) as (ring & Hr & Hvr).
  unfold reaches_interior. apply existsb_exists. exists ring.
  split; [exact Hr |]. now rewrite (on_side_strict b ring v Hvr Hs).
Qed.

Lemma contains_strictly_inside b g : strictly_inside b g -> contains b g = true.
Proof.
  intros Hin. pose proof (reaches_interior_strict b g Hin) as Hreach.
  destruct Hin as [Hne Hall]. destruct g as [p | shell | polys]; cbn in *.
  - apply in_interior_spec. now inversion Hall.
  - unfold is_empty. cbn. rewrite Hreach, andb_true_r.
    destruct shell as [| v vs]; [congruence |]. cbn [negb andb].
    apply forallb_forall. intros q Hq. apply in_closure_spec.
    rewrite List.Forall_forall in Hall. specialize (Hall q Hq).
    unfold pt_strictly_inside, pt_within in *. lra.
  - unfold is_empty. cbn. rewrite Hreach, andb_true_r.
    destruct (concat polys) as [| v vs]; [congruence |]. cbn [negb andb].
    apply forallb_forall. intros q Hq. apply in_closure_spec.
    rewrite List.Forall_forall in Hall. specialize (Hall q Hq).
    unfold pt_strictly_inside, pt_within in *. lra.
Qed.

(** A polygon or multipolygon is contained when it is within the closed
    rectangle and not flat in its sides: touching the outline from the
    inside does not exclude it. *)
Lemma contains_areal b g :
  (forall p, g <> Point p) ->
  (contains b g = true <-> within_closure b g /\ reaches_interior b g = true).
Proof.
  intros Hnp. unfold within_closure.
  destruct g as [p | shell | polys]; [now destruct (Hnp p) | |];
    cbn [contains]; unfold is_empty; cbn [vertices];
      rewrite !andb_true_iff, forallb_forall,
        List.Forall_forall; setoid_rewrite in_closure_spec.
  - destruct shell; cbn [negb]; intuition congruence.
  - destruct (concat polys); cbn [negb]; intuition congruence.
Qed.

Lemma contains_within_closure b g : contains b g = true -> within_closure b g.
Proof.
  destruct g as [p | shell | polys].
  - cbn. intros Hc. apply in_interior_spec in Hc.
    split; [discriminate |]. constructor; [| constructor].
    unfold pt_strictly_inside, pt_within in *. lra.
  - intros Hc. now apply contains_areal in Hc as [Hc _].
  - intros Hc. now apply contains_areal in Hc as [Hc _].
Qed.

Lemma contains_vertex_within b g p :
  contains b g = true -> In p (vertices g) -> pt_within b p.
Proof.
  intros Hc Hin. apply contains_within_closure in Hc as [_ Hall].
  rewrite List.Forall_forall in Hall. now apply Hall.
Qed.

Lemma contains_nonempty b g : contains b g = true -> vertices g <> [].
Proof. intros Hc. now apply contains_within_closure in Hc as [Hne _]. Qed.


Lemma outside_not_contained b g : outside b g -> contains b g = false.
Proof.
  intros Hout. destruct (contains b g) eqn:Hc; [exfalso | reflexivity].
  pose proof (contains_nonempty _ _ Hc) as Hne.
  destruct (vertices g) as [| v vs] eqn:Hv; [congruence |].
  unfold outside in Hout. rewrite Hv in Hout. inversion Hout as [| ? ? Hv0 _]; subst.
  apply Hv0. apply (contains_vertex_within b g v Hc). rewrite Hv. now left.
Qed.

Lemma region_bbox_items r b :
  In (r, b) region_bbox <->
  (r = "na" /\ b = na_box) \/ (r = "hi" /\ b = hi_box) \/ (r = "pr" /\ b = pr_box).
Proof.
  unfold region_bbox, na_box, hi_box, pr_box. cbn [In].
  split.
  - intros [H | [H | [H | []]]]; inversion H; auto.
  - intros [[-> ->] | [[-> ->] | [-> ->]]]; auto.
Qed.

Lemma get_region_unfold gid g :
  _get_region gid g =
  if contains na_box g then Return "na"
  else if contains hi_box g then Return "hi"
  else if contains pr_box g then Return "pr"
  else Raise (InvalidInputRange (outside_msg gid)).
Proof.
  unfold _get_region, region_bbox. cbn [first_containing].
  fold na_box hi_box pr_box.
  now destruct (contains na_box g), (contains hi_box g), (contains pr_box g).
Qed.

Lemma hi_disjoint_na p : pt_within hi_box p -> ~ pt_within na_box p.
Proof. unfold pt_within, hi_box, na_box. cbn. lra. Qed.

Lemma pr_inside_na p : pt_within pr_box p -> pt_strictly_inside na_box p.
Proof. unfold pt_within, pt_strictly_inside, pr_box, na_box. cbn. lra. Qed.

Lemma pt_strictly_inside_within b p : pt_strictly_inside b p -> pt_within b p.
Proof. unfold pt_within, pt_strictly_inside. lra. Qed.

Lemma strictly_inside_head b g :
  strictly_inside b g -> exists p, In p (vertices g) /\ pt_strictly_inside b p.
Proof.
  intros [Hne Hall]. destruct (vertices g) as [| v vs]; [congruence |].
  exists v. split; [now left | now inversion Hall].
Qed.

Lemma outside_vertex b g p : outside b g -> In p (vertices g) -> ~ pt_within b p.
Proof. unfold outside. rewrite List.Forall_forall. auto. Qed.

(** No geometry is strictly inside the pr rectangle and outside the na
    rectangle: the pr rectangle lies in the interior of the na one. *)
Lemma pr_never_outside_na g : strictly_inside pr_box g -> ~ outside na_box g.
Proof.
  intros Hin Hout. destruct (strictly_inside_head _ _ Hin) as (p & Hp & Hs).
  apply (outside_vertex _ _ _ Hout Hp).
  now apply pt_strictly_inside_within, pr_inside_na, pt_strictly_inside_within.
Qed.

Lemma strictly_inside_pr_na g : strictly_inside pr_box g -> strictly_inside na_box g.
Proof.
  intros [Hne Hall]. split; [exact Hne |].
  eapply List.Forall_impl; [| exact Hall].
  intros p Hp. now apply pr_inside_na, pt_strictly_inside_within.
Qed.

Lemma strictly_inside_hi_not_na g : strictly_inside hi_box g -> contains na_box g = false.
Proof.
  intros Hin. destruct (strictly_inside_head _ _ Hin) as (p & Hp & Hs).
  destruct (contains na_box g) eqn:Hc; [exfalso | reflexivity].
  apply (hi_disjoint_na p).
  - now apply pt_strictly_inside_within.
  - now apply (contains_vertex_within na_box g).
Qed.

(** C1.  A geometry strictly inside one of the three region rectangles and
    outside the other two is given that region; a geometry outside all
    three raises the invalid-range error naming its id. *)
Theorem get_region_sole_box (gid : string) (geom : Geometry) :
  (forall r b,
      In (r, b) region_bbox ->
      strictly_inside b geom ->
      (forall r' b', In (r', b') region_bbox -> r' <> r -> outside b' geom) ->
      _get_region gid geom = Return r)
  /\
  ((forall r b, In (r, b) region_bbox -> outside b geom) ->
   _get_region gid geom = Raise (InvalidInputRange (outside_msg gid))).
Proof.
  split.
  - intros r b Hrb Hin Hout. rewrite get_region_unfold.
    apply region_bbox_items in Hrb as [[-> ->] | [[-> ->] | [-> ->]]].
    + now rewrite (contains_strictly_inside _ _ Hin).
    + rewrite (strictly_inside_hi_not_na _ Hin).
      now rewrite (contains_strictly_inside _ _ Hin).
    + exfalso. apply (pr_never_outside_na geom Hin).
      apply (Hout "na" na_box); [| discriminate].
      apply region_bbox_items. auto.
  - intros Hout. rewrite get_region_unfold.
    rewrite !outside_not_contained; [reflexivity | | |];
      eapply Hout; apply region_bbox_items; eauto.
Qed.

Lemma get_region_sole_box_witness :
  _get_region "cal" (Point (Coord (-122.2493328) 37.8122894)) = Return "na"
  /\ _get_region "sea" (Point (Coord 0 0))
     = Raise (InvalidInputRange (outside_msg "sea")).
Proof.
  split.
  - apply (proj1 (get_region_sole_box "cal" (Point (Coord (-122.2493328) 37.8122894)))
             "na" na_box).
    + apply region_bbox_items. auto.
    + split; [discriminate |]. repeat constructor; cbn; lra.
    + intros r' b' Hin Hne.
      apply region_bbox_items in Hin as [[-> ->] | [[-> ->] | [-> ->]]];
        [congruence | |]; repeat constructor; unfold pt_within; cbn; lra.
  - apply (proj2 (get_region_sole_box "sea" (Point (Coord 0 0)))).
    intros r b Hin.
    apply region_bbox_items in Hin as [[-> ->] | [[-> ->] | [-> ->]]];
      repeat constructor; unfold pt_within; cbn; lra.
Defined.

(** C9.  A geometry strictly inside the pr rectangle is given region na,
    and so never pr: the na rectangle is tested first and contains the pr
    rectangle. *)
Theorem get_region_pr_is_na (gid : string) (geom : Geometry) :
  strictly_inside pr_box geom ->
  In ("pr", pr_box) region_bbox /\
  (forall p, pt_within pr_box p -> pt_strictly_inside na_box p) /\
  _get_region gid geom = Return "na" /\
  _get_region gid geom <> Return "pr".
Proof.
  intros Hin.
  assert (Hna : _get_region gid geom = Return "na").
  { rewrite get_region_unfold.
    now rewrite (contains_strictly_inside _ _ (strictly_inside_pr_na _ Hin)). }
  split; [| split; [| split]].
  - apply region_bbox_items. auto.
  - apply pr_inside_na.
  - exact Hna.
  - rewrite Hna. discriminate.
Qed.

Lemma get_region_pr_is_na_witness :
  _get_region "sju" (Point (Coord (-66.1057) 18.4655)) = Return "na".
Proof.
  apply (get_region_pr_is_na "sju" (Point (Coord (-66.1057) 18.4655))).
  split; [discriminate |]. repeat constructor; cbn; lra.
Defined.

(** The rectangle of region na, as a polygon, touches the outline of the na
    rectangle along its whole ring and is still given region na. *)
Example get_region_na_polygon :
  _get_region "na-box"
    (Polygon [Coord (-136.8989) 6.0761; Coord (-6.1376) 6.0761;
              Coord (-6.1376) 69.077; Coord (-136.8989) 69.077])
  = Return "na".
Proof. reflexivity. Qed.

Lemma point_contains_strict b p :
  contains b (Point p) = true <-> strictly_inside b (Point p).
Proof.
  cbn. rewrite in_interior_spec. unfold strictly_inside. cbn. split.
  - intros H. split; [discriminate | now constructor].
  - intros [_ H]. now inversion H.
Qed.

(** For a point, lying on the outline is being in the closed rectangle and
    not in its interior. *)
Lemma point_lies_on_boundary b p :
  lies_on_boundary b (Point p) <-> pt_on_boundary b p.
Proof.
  unfold lies_on_boundary, pt_on_boundary, within_closure. cbn [vertices rings].
  split.
  - intros [[_ Hw] Hs]. inversion Hw as [| ? ? Hp _]; subst.
    inversion Hs as [| ? ? Hon _]; subst. split; [exact Hp |].
    intros Hin. rewrite (on_side_strict b [p] p) in Hon;
      [discriminate | now left | exact Hin].
  - intros [Hw Hout].
    split; [split; [discriminate | constructor; [exact Hw | constructor]] |].
    constructor; [| constructor]. unfold on_side. cbn [forallb].
    rewrite !andb_true_r.
    destruct (Qeq_bool (cx p) (minx b)) eqn:E1; [reflexivity |].
    destruct (Qeq_bool (cx p) (maxx b)) eqn:E2; [reflexivity |].
    destruct (Qeq_bool (cy p) (miny b)) eqn:E3; [reflexivity |].
    destruct (Qeq_bool (cy p) (maxy b)) eqn:E4; [reflexivity |].
    exfalso. apply Hout.
    apply Qeq_bool_neq in E1, E2, E3, E4.
    destruct Hw as (H1 & H2 & H3 & H4).
    apply Qle_lt_or_eq in H1, H2, H3, H4.
    unfold pt_strictly_inside.
    destruct H1 as [? | H1]; [| exfalso; apply E1; now symmetry].
    destruct H2 as [? | H2]; [| exfalso; now apply E2].
    destruct H3 as [? | H3]; [| exfalso; apply E3; now symmetry].
    destruct H4 as [? | H4]; [| exfalso; now apply E4].
    tauto.
Qed.


(** A triangle collapsed onto the west side of the na rectangle lies in its
    outline and has no region. *)
Example get_region_flat_polygon :
  _get_region "flat"
    (Polygon [Coord (-136.8989) 10; Coord (-136.8989) 20; Coord (-136.8989) 30])
  = Raise (InvalidInputRange (outside_msg "flat")).
Proof. reflexivity. Qed.

End RegionResolver.

Section RequestBuilder.
Context `{Service}.

Lemma for_each_return {A B} (f : A -> result B) (g : A -> B) (xs : list A) :
  (forall x, In x xs -> f x = Return (g x)) -> for_each f xs = Return (map g xs).
Proof.
  induction xs as [| x xs IH]; intros Hf; [reflexivity |].
  cbn [for_each map]. rewrite (Hf x) by now left.
  rewrite IH; [reflexivity |]. intros y Hy. apply Hf. now right.
Qed.

Lemma for_each_empty_ok {A B} (f : A -> result B) : for_each f [] = Return [].
Proof. reflexivity. Qed.

Lemma scale_of_code_cases code sc :
  scale_of_code code = Some sc ->
  (code = 1840%Z /\ sc = Daily) \/ (code = 1855%Z /\ sc = Monthly)
  \/ (code = 1852%Z /\ sc = Annual).
Proof.
  unfold scale_of_code.
  destruct (Z.eqb_spec code 1840); [intros [= <-]; auto |].
  destruct (Z.eqb_spec code 1855); [intros [= <-]; auto |].
  destruct (Z.eqb_spec code 1852); [intros [= <-]; auto | discriminate].
Qed.

Lemma eqb_prcp_decide {A} (v : string) (x y : A) :
  (if String.eqb v "prcp" then x else y) = (if decide (v = "prcp") then x else y).
Proof.
  destruct (String.eqb_spec v "prcp"), (decide (v = "prcp")); congruence.
Qed.

Lemma get_filename_spec code sc region :
  scale_of_code code = Some sc ->
  exists name, _get_filename region !! code = Some name
               /\ forall v, name v = spec_filename sc region v.
Proof.
  intros Hsc.
  destruct (scale_of_code_cases _ _ Hsc) as [[-> ->] | [[-> ->] | [-> ->]]];
    eexists; (split; [reflexivity |]); intros v;
    cbv beta iota delta [snd]; cbn [spec_filename];
    try reflexivity; rewrite eqb_prcp_decide; now destruct (decide (v = "prcp")) as [-> |].
Qed.

Lemma file_url_spec code sc region v s :
  scale_of_code code = Some sc ->
  file_url (_get_filename region) code v s = Return (spec_url code sc region v s).
Proof.
  intros Hsc. destruct (get_filename_spec code sc region Hsc) as (name & Hl & Hn).
  unfold file_url, getitem. rewrite Hl. cbn. unfold spec_url. now rewrite Hn.
Qed.

Lemma file_url_inv region code v s url :
  file_url (_get_filename region) code v s = Return url ->
  exists sc, scale_of_code code = Some sc /\ url = spec_url code sc region v s.
Proof.
  intros Hu. destruct (scale_of_code code) as [sc |] eqn:Hsc.
  - exists sc. split; [reflexivity |].
    rewrite (file_url_spec _ _ _ _ _ Hsc) in Hu. now inversion Hu.
  - exfalso. unfold file_url, getitem in Hu.
    assert (Hnone : _get_filename region !! code = None).
    { unfold _get_filename. cbn [list_to_map foldr fst snd].
      unfold scale_of_code in Hsc.
      destruct (Z.eqb_spec code 1840); [discriminate |].
      destruct (Z.eqb_spec code 1855); [discriminate |].
      destruct (Z.eqb_spec code 1852); [discriminate |].
      rewrite !lookup_insert_ne by congruence. apply lookup_empty. }
    rewrite Hnone in Hu. discriminate.
Qed.

Lemma for_each_inv {A B} (f : A -> result B) (xs : list A) (ys : list B) :
  for_each f xs = Return ys -> Forall2 (fun x y => f x = Return y) xs ys.
Proof.
  revert ys. induction xs as [| x xs IH]; intros ys; cbn [for_each].
  - intros [= <-]. constructor.
  - destruct (f x) as [y |] eqn:Hx; [| discriminate].
    destruct (for_each f xs) as [ys' |] eqn:Hxs; [| discriminate].
    intros [= <-]. constructor; [exact Hx | now apply IH].
Qed.

Lemma for_each_in_ret {A B} (f : A -> result B) (xs : list A) (ys : list B) y :
  for_each f xs = Return ys -> In y ys -> exists x, In x xs /\ f x = Return y.
Proof.
  intros Hret. apply for_each_inv in Hret.
  induction Hret as [| x y' xs ys Hxy _ IH]; intros Hin; [contradiction |].
  destruct Hin as [<- | Hin].
  - exists x. split; [now left | exact Hxy].
  - destruct (IH Hin) as (x' & Hx' & Hf). exists x'. split; [now right | exact Hf].
Qed.

Lemma list_prod_cons {A B} (x : A) (xs : list A) (ys : list B) :
  list_prod (x :: xs) ys = (map (pair x) ys ++ list_prod xs ys)%list.
Proof. reflexivity. Qed.

Lemma lookup_list_prod {A B} (xs : list A) (ys : list B) i j x y :
  xs !! i = Some x -> ys !! j = Some y ->
  list_prod xs ys !! (i * length ys + j)%nat = Some (x, y).
Proof.
  revert i. induction xs as [| x0 xs IH]; intros i Hx Hy; [discriminate |].
  rewrite list_prod_cons. destruct i as [| i]; cbn in Hx.
  - injection Hx as ->. cbn [Nat.mul Nat.add].
    rewrite lookup_app_l.
    + now rewrite list_lookup_fmap, Hy.
    + rewrite length_map. now apply lookup_lt_Some in Hy.
  - rewrite lookup_app_r; rewrite length_map; [| lia].
    replace (S i * length ys + j - length ys)%nat with (i * length ys + j)%nat by lia.
    now apply IH.
Qed.

Lemma join_groups {A B C} (g : A -> B -> C) (xs : list A) (ys : list B) :
  mjoin (map (fun x => map (g x) ys) xs)
  = map (fun xy => g (fst xy) (snd xy)) (list_prod xs ys).
Proof.
  induction xs as [| x xs IH]; [reflexivity |].
  rewrite list_prod_cons, map_app, map_map, <- IH. reflexivity.
Qed.

Lemma strftime_iso8601 t : strftime DATE_REQ t = iso8601_utc t.
Proof. reflexivity. Qed.

Lemma coord_urls_explicit code sc lon lat region variables dates :
  scale_of_code code = Some sc ->
  _coord_urls code (lon, lat) region variables dates
  = Return (map (fun v =>
              map (fun w : Window =>
                     (spec_url code sc region v (fst w),
                      {[ "params" := coord_params lon lat v w ]} : Kwds))
                  dates)
              variables).
Proof.
  intros Hsc. unfold _coord_urls.
  apply for_each_return. intros v _.
  apply for_each_return. intros w _.
  now rewrite (file_url_spec _ _ _ _ _ Hsc).
Qed.

(** C2.  For a served endpoint code, the point-mode builder returns one
    group per variable and one request per window in each group, so
    [V * W] requests in all; flattened, the request of the [i]-th variable
    and [j]-th window is at position [i * W + j]: variables first, windows
    in the order given within a variable. *)
Theorem coord_urls_grouped (code : Z) (sc : Scale) (coord : Q * Q)
    (region : string) (variables : list string) (dates : list Window) :
  scale_of_code code = Some sc ->
  exists groups,
    _coord_urls code coord region variables dates = Return groups
    /\ length groups = length variables
    /\ Forall (fun g => length g = length dates) groups
    /\ length (mjoin groups) = (length variables * length dates)%nat
    /\ forall i j v w,
         variables !! i = Some v -> dates !! j = Some w ->
         mjoin groups !! (i * length dates + j)%nat
         = Some (spec_url code sc region v (fst w),
                 {[ "params" := coord_params (fst coord) (snd coord) v w ]}).
Proof.
  intros Hsc. destruct coord as [lon lat].
  eexists. split; [exact (coord_urls_explicit code sc lon lat _ _ _ Hsc) |].
  split; [now rewrite length_map |].
  split.
  { apply List.Forall_forall. intros g Hg. apply in_map_iff in Hg as (v & <- & _).
    now rewrite length_map. }
  rewrite join_groups. split.
  - now rewrite length_map, length_prod.
  - intros i j v w Hv Hw. rewrite list_lookup_fmap.
    now rewrite (lookup_list_prod _ _ _ _ _ _ Hv Hw).
Qed.

Lemma twelve_params_any_order (v n s e w t0 t1 : string) :
  (list_to_map
     [ ("var", v); ("north", n); ("west", w); ("east", e); ("south", s);
       ("disableProjSubset", "on"); ("horizStride", "1"); ("time_start", t0);
       ("time_end", t1); ("timeStride", "1"); ("addLatLon", "true");
       ("accept", "netcdf") ] : Params)
  = list_to_map
      [ ("var", v); ("north", n); ("south", s); ("east", e); ("west", w);
        ("disableProjSubset", "on"); ("horizStride", "1"); ("timeStride", "1");
        ("time_start", t0); ("time_end", t1); ("addLatLon", "true");
        ("accept", "netcdf") ].
Proof. reflexivity. Qed.

Lemma twelve_params_dom (v n s e w t0 t1 : string) :
  dom (list_to_map
         [ ("var", v); ("north", n); ("south", s); ("east", e); ("west", w);
           ("disableProjSubset", "on"); ("horizStride", "1"); ("timeStride", "1");
           ("time_start", t0); ("time_end", t1); ("addLatLon", "true");
           ("accept", "netcdf") ] : Params)
  = spec_grid_keys.
Proof. reflexivity. Qed.

Lemma grid_params_spec west south east north v w :
  grid_params west south east north v w
  = spec_grid_params west south east north v w.
Proof.
  unfold grid_params, spec_grid_params. rewrite !strftime_iso8601.
  apply twelve_params_any_order.
Qed.

Lemma gridded_urls_explicit code sc west south east north region variables dates :
  scale_of_code code = Some sc ->
  _gridded_urls code (west, south, east, north) region variables dates
  = Return (map (fun vw : string * Window =>
                   (spec_url code sc region (fst vw) (fst (snd vw)),
                    {[ "params" :=
                         spec_grid_params west south east north (fst vw) (snd vw) ]}
                    : Kwds))
                (list_prod variables dates)).
Proof.
  intros Hsc. unfold _gridded_urls.
  apply for_each_return. intros [v w] _. cbn [fst snd].
  now rewrite (file_url_spec _ _ _ _ _ Hsc), grid_params_spec.
Qed.

(** C4.  For a served endpoint code, the grid-mode builder returns one
    request for each element of the product of the variables and the
    windows, in product order, and every request carries exactly the
    twelve query parameters var, north, south, east, west,
    disableProjSubset=on, horizStride=1, timeStride=1, time_start and
    time_end (ISO-8601 UTC to the second), addLatLon=true and
    accept=netcdf. *)
Theorem gridded_urls_product (code : Z) (sc : Scale) (bounds : Q * Q * Q * Q)
    (region : string) (variables : list string) (dates : list Window) :
  scale_of_code code = Some sc ->
  exists reqs,
    _gridded_urls code bounds region variables dates = Return reqs
    /\ length reqs = (length variables * length dates)%nat
    /\ (forall i j v w,
          variables !! i = Some v -> dates !! j = Some w ->
          exists url params,
            reqs !! (i * length dates + j)%nat = Some (url, {[ "params" := params ]})
            /\ params !! "var" = Some v
            /\ params !! "time_start" = Some (iso8601_utc (fst w))
            /\ params !! "time_end" = Some (iso8601_utc (snd w)))
    /\ (forall rq, In rq reqs ->
          exists v w,
            In (v, w) (list_prod variables dates)
            /\ let '(west, south, east, north) := bounds in
               snd rq = {[ "params" := spec_grid_params west south east north v w ]}
               /\ dom (spec_grid_params west south east north v w) = spec_grid_keys).
Proof.
  intros Hsc. destruct bounds as [[[west south] east] north].
  eexists. split;
    [exact (gridded_urls_explicit code sc west south east north _ _ _ Hsc) |].
  split; [now rewrite length_map, length_prod |]. split.
  - intros i j v w Hv Hw. do 2 eexists.
    rewrite list_lookup_fmap, (lookup_list_prod _ _ _ _ _ _ Hv Hw). cbn [fmap option_fmap option_map fst snd].
    split; [reflexivity |].
    unfold spec_grid_params.
    generalize (iso8601_utc (fst w)) (iso8601_utc (snd w)) (float_str north)
               (float_str south) (float_str east) (float_str west).
    intros. repeat split; reflexivity.
  - intros rq Hrq. apply in_map_iff in Hrq as ([v w] & <- & Hin).
    exists v, w. split; [exact Hin |]. cbn [fst snd]. split; [reflexivity |].
    apply twelve_params_dom.
Qed.

(** C3.  The file name in every request URL: [daily_{region}_{v}] under
    code 1840 for every variable; under codes 1855 and 1852 the total
    suffix ([prcp_monttl_{region}], [prcp_annttl_{region}]) for [prcp] and
    the average suffix ([{v}_monavg_{region}], [{v}_annavg_{region}]) for
    every other variable; and both builders put that name in the URL. *)
Theorem filename_convention (region : string) :
  (forall v, (fun name => name v) <$> _get_filename region !! 1840%Z
             = Some ("daily_" ++ region ++ "_" ++ v))
  /\ (fun name => name "prcp") <$> _get_filename region !! 1855%Z
     = Some ("prcp_monttl_" ++ region)
  /\ (fun name => name "prcp") <$> _get_filename region !! 1852%Z
     = Some ("prcp_annttl_" ++ region)
  /\ (forall v, v <> "prcp" ->
        (fun name => name v) <$> _get_filename region !! 1855%Z
        = Some (v ++ "_monavg_" ++ region)
        /\ (fun name => name v) <$> _get_filename region !! 1852%Z
           = Some (v ++ "_annavg_" ++ region))
  /\ (forall code coord variables dates groups rq,
        _coord_urls code coord region variables dates = Return groups ->
        In rq (mjoin groups) ->
        exists sc v w,
          scale_of_code code = Some sc /\ In v variables /\ In w dates
          /\ fst rq = daymet_url ++ "/" ++ str_int code ++ "/daymet_v4_"
                      ++ spec_filename sc region v ++ "_"
                      ++ str_int (year (fst w)) ++ ".nc")
  /\ (forall code bounds variables dates reqs rq,
        _gridded_urls code bounds region variables dates = Return reqs ->
        In rq reqs ->
        exists sc v w,
          scale_of_code code = Some sc /\ In v variables /\ In w dates
          /\ fst rq = daymet_url ++ "/" ++ str_int code ++ "/daymet_v4_"
                      ++ spec_filename sc region v ++ "_"
                      ++ str_int (year (fst w)) ++ ".nc").
Proof.
  split; [intros v; reflexivity |].
  split; [reflexivity |]. split; [reflexivity |]. split.
  { intros v Hv.
    destruct (get_filename_spec 1855 Monthly region eq_refl) as (n1 & -> & E1).
    destruct (get_filename_spec 1852 Annual region eq_refl) as (n2 & -> & E2).
    cbn [fmap option_fmap option_map]. rewrite E1, E2. cbn [spec_filename].
    now destruct (decide (v = "prcp")). }
  split.
  - intros code [lon lat] variables dates groups rq Hret Hin.
    unfold _coord_urls in Hret.
    apply list_elem_of_In, list_elem_of_join in Hin as (g & Hrq & Hg).
    apply list_elem_of_In in Hrq, Hg.
    destruct (for_each_in_ret _ _ _ _ Hret Hg) as (v & Hv & Hgv).
    destruct (for_each_in_ret _ _ _ _ Hgv Hrq) as (w & Hw & Hrqw).
    destruct (file_url (_get_filename region) code v (fst w)) as [url |] eqn:Hu;
      [| discriminate].
    injection Hrqw as <-.
    destruct (file_url_inv _ _ _ _ _ Hu) as (sc & Hsc & ->).
    now exists sc, v, w.
  - intros code [[[west south] east] north] variables dates reqs rq Hret Hin.
    unfold _gridded_urls in Hret.
    destruct (for_each_in_ret _ _ _ _ Hret Hin) as ([v w] & Hvw & Hrqw).
    destruct (file_url (_get_filename region) code v (fst w)) as [url |] eqn:Hu;
      [| discriminate].
    injection Hrqw as <-.
    destruct (file_url_inv _ _ _ _ _ Hu) as (sc & Hsc & ->).
    apply in_prod_iff in Hvw as [Hv Hw].
    now exists sc, v, w.
Qed.

End RequestBuilder.

Section ColumnLabels.

Lemma append_cons c (s t : string) : String c s ++ t = String c (s ++ t).
Proof. reflexivity. Qed.

Lemma append_nil_l (t : string) : EmptyString ++ t = t.
Proof. reflexivity. Qed.

Lemma append_nil_r (s : string) : s ++ EmptyString = s.
Proof.
  induction s as [| c s IH]; [reflexivity |]. now rewrite append_cons, IH.
Qed.

Lemma replace_from_skip old new s t :
  replace_from old new (String.length s) (s ++ t) = replace_from old new 0 t.
Proof.
  induction s as [| c s IH]; [reflexivity |].
  rewrite append_cons. cbn [String.length replace_from]. exact IH.
Qed.

Lemma prefix_self_app s t : String.prefix s (s ++ t) = true.
Proof.
  induction s as [| c s IH]; [rewrite append_nil_l; now destruct t |].
  rewrite append_cons. cbn [String.prefix].
  destruct (ascii_dec c c); [exact IH | congruence].
Qed.

Lemma replace_from_hit c old new t :
  replace_from (String c old) new 0 (String c old ++ t)
  = new ++ replace_from (String c old) new 0 t.
Proof.
  pose proof (prefix_self_app (String c old) t) as P.
  rewrite append_cons in P |- *. cbn [replace_from]. rewrite P.
  replace (String.length (String c old) - 1)%nat with (String.length old)
    by (cbn [String.length]; lia).
  now rewrite replace_from_skip.
Qed.

Lemma replace_from_miss c old new s t :
  has_char c s = false ->
  replace_from (String c old) new 0 (s ++ t)
  = s ++ replace_from (String c old) new 0 t.
Proof.
  induction s as [| c' s IH]; intros Hs; [reflexivity |].
  cbn [has_char] in Hs. apply orb_false_iff in Hs as [Hc Hs].
  rewrite !append_cons. cbn [replace_from String.prefix].
  destruct (ascii_dec c c') as [-> | _]; [now rewrite Ascii.eqb_refl in Hc |].
  now rewrite IH.
Qed.

Lemma replace_from_absent c old new s :
  has_char c s = false -> replace_from (String c old) new 0 s = s.
Proof.
  intros Hs. rewrite <- (append_nil_r s) at 1.
  rewrite (replace_from_miss _ _ _ _ _ Hs). cbn. apply append_nil_r.
Qed.

Lemma has_char_app c s t : has_char c (s ++ t) = has_char c s || has_char c t.
Proof.
  induction s as [| c' s IH]; [reflexivity |].
  rewrite append_cons. cbn [has_char]. now rewrite IH, orb_assoc.
Qed.

Lemma append_assoc (s t u : string) : (s ++ t) ++ u = s ++ t ++ u.
Proof.
  induction s as [| c s IH]; [reflexivity |]. now rewrite !append_cons, IH.
Qed.

(** Line 135 on a raw label. *)
Lemma normalize_raw_label name u :
  plain name -> plain u ->
  normalize_label (raw_label name u) = normalized_label name u.
Proof.
  intros [Hnb Hnq] [Hub Huq]. unfold normalize_label, raw_label, normalized_label.
  assert (E1 : replace (name ++ "[unit=" ++ dquote ++ u ++ dquote ++ "]")
                       ("[unit=" ++ dquote) " ("
               = name ++ " (" ++ u ++ dquote ++ "]").
  { change (replace ?s ("[unit=" ++ dquote) ?n)
      with (replace_from (String "[" ("unit=" ++ dquote)) n 0 s).
    rewrite (replace_from_miss _ _ _ _ _ Hnb).
    change ("[unit=" ++ dquote ++ u ++ dquote ++ "]")
      with (String "[" ("unit=" ++ dquote) ++ (u ++ dquote ++ "]")).
    rewrite replace_from_hit. rewrite replace_from_absent; [reflexivity |].
    rewrite has_char_app, Hub. reflexivity. }
  rewrite E1.
  change (replace ?s (dquote ++ "]") ?n)
    with (replace_from (String dquote_char "]") n 0 s).
  replace (name ++ " (" ++ u ++ dquote ++ "]")
    with ((name ++ " (" ++ u) ++ String dquote_char "]" ++ EmptyString).
  2:{ now rewrite !append_assoc. }
  rewrite replace_from_miss.
  - rewrite replace_from_hit. cbn [replace_from]. now rewrite !append_assoc.
  - rewrite !has_char_app, Hnq, Huq. reflexivity.
Qed.

End ColumnLabels.

Section PointMode.
Context `{Collaborators}.

Lemma normalize_columns_labels clm :
  df_columns (normalize_columns clm)
  = map (fun c => final_label (normalize_label c)) (df_columns clm).
Proof.
  unfold normalize_columns. cbn [df_columns].
  destruct (bool_decide _) eqn:Hin; cbn [rename_column df_columns].
  - now rewrite map_map.
  - apply bool_decide_eq_false in Hin.
    apply map_ext_in. intros c Hc. unfold final_label.
    destruct (String.eqb_spec (normalize_label c) "prcp (mm)") as [E | _];
      [| reflexivity].
    exfalso. apply Hin. rewrite <- E.
    apply list_elem_of_In, in_map, Hc.
Qed.

Lemma normalize_columns_frame clm :
  df_index (normalize_columns clm) = df_index clm
  /\ df_rows (normalize_columns clm) = df_rows clm.
Proof.
  unfold normalize_columns. now destruct (bool_decide _).
Qed.

(** C6.  Whenever the plan is built and the payloads are assembled into
    [clm], [get_bycoords] goes on with the table [out] whose labels are
    those of [clm] rewritten: a raw label [name[unit=u]] (the unit between
    double quotes) becomes [name (u)], and a label that reads [prcp (mm)]
    after the rewrite becomes [prcp (mm/day)]. *)
Theorem get_bycoords_labels (scheds : nat -> list nat) (coords : list Q)
    (dates : Dates) (crs : string) (variables : option (list string))
    (region time_scale : string) (pet : option string) (pet_params : PetParams)
    (ssl : SSL) (coord : Q * Q) (url_kwds : list (list Request))
    (clm : DataFrame) :
  plan_bycoords coords dates crs variables region time_scale pet
    = Return (coord, url_kwds) ->
  assemble scheds ssl url_kwds = Return clm ->
  exists out,
    get_bycoords scheds coords dates crs variables region time_scale pet
                 pet_params ssl
    = match pet with
      | Some method => potential_et_point out coord method pet_params
      | None => Return out
      end
    /\ length (df_columns out) = length (df_columns clm)
    /\ df_rows out = df_rows clm
    /\ (forall i name u,
          plain name -> plain u ->
          df_columns clm !! i = Some (raw_label name u) ->
          df_columns out !! i
          = Some (if decide (normalized_label name u = "prcp (mm)")
                  then "prcp (mm/day)"
                  else normalized_label name u))
    /\ (forall i,
          df_columns clm !! i = Some (raw_label "prcp" "mm") ->
          df_columns out !! i = Some "prcp (mm/day)").
Proof.
  intros Hplan Hasm. exists (reindex_days (normalize_columns clm)).
  assert (Hraw : forall i name u,
             plain name -> plain u ->
             df_columns clm !! i = Some (raw_label name u) ->
             df_columns (reindex_days (normalize_columns clm)) !! i
             = Some (final_label (normalized_label name u))).
  { intros i name u Hn Hu Hi. cbn [reindex_days df_columns].
    rewrite normalize_columns_labels, list_lookup_fmap, Hi. cbn.
    now rewrite normalize_raw_label. }
  split; [| split; [| split; [| split]]].
  - unfold get_bycoords. rewrite Hplan. cbn. rewrite Hasm. reflexivity.
  - cbn [reindex_days df_columns].
    now rewrite normalize_columns_labels, length_map.
  - cbn [reindex_days df_rows]. apply normalize_columns_frame.
  - intros i name u Hn Hu Hi. rewrite (Hraw i name u Hn Hu Hi).
    unfold final_label.
    destruct (String.eqb_spec (normalized_label name u) "prcp (mm)"),
             (decide (normalized_label name u = "prcp (mm)")); congruence.
  - intros i Hi. rewrite (Hraw i "prcp" "mm"); [reflexivity | | | exact Hi];
      split; reflexivity.
Qed.

End PointMode.

Section GridMode.
Context `{Collaborators}.

(** C5.  When the plan is built, the payloads are fetched and merging them
    raises a [ValueError], [get_bygeom] raises one [ServiceError] with the
    fixed message, caused by that error, and returns no dataset. *)
Theorem get_bygeom_merge_failure (sched : list nat) (geometry : GeomArg)
    (dates : Dates) (crs : string) (variables : option (list string))
    (region time_scale : string) (pet : option string) (pet_params : PetParams)
    (ssl : SSL) (daymet : Daymet) (g : Geometry) (urls : list string)
    (kwds : list Kwds) (payloads : list bytes) (msg : string) :
  plan_bygeom geometry dates crs variables region time_scale pet
    = Return (daymet, g, urls, kwds) ->
  retrieve sched urls kwds ssl = Return payloads ->
  open_mfdataset payloads = Raise (ValueError msg) ->
  get_bygeom sched geometry dates crs variables region time_scale pet
             pet_params ssl
  = Raise (ServiceError service_msg (ValueError msg))
  /\ forall clm,
       get_bygeom sched geometry dates crs variables region time_scale pet
                  pet_params ssl
       <> Return clm.
Proof.
  intros Hplan Hfetch Hmerge.
  assert (E : get_bygeom sched geometry dates crs variables region time_scale
                         pet pet_params ssl
              = Raise (ServiceError service_msg (ValueError msg))).
  { unfold get_bygeom. rewrite Hplan. cbn.
    unfold fetch_and_merge. rewrite Hfetch. cbn. rewrite Hmerge. reflexivity. }
  split; [exact E |]. intros clm. rewrite E. discriminate.
Qed.

Lemma set_var_attr_dom name key val ds :
  dom (ds_variables (set_var_attr name key val ds)) = dom (ds_variables ds).
Proof. cbn. apply dom_alter_L. Qed.

Lemma copy_metadata_frame ds v :
  dom (ds_variables (copy_metadata ds v)) = dom (ds_variables ds)
  /\ ds_coord_names (copy_metadata ds v) = ds_coord_names ds
  /\ ds_attrs (copy_metadata ds v) = ds_attrs ds.
Proof.
  unfold copy_metadata. rewrite !set_var_attr_dom. now cbn.
Qed.

Lemma copy_metadata_here ds v da :
  ds_variables (copy_metadata ds v) !! v = Some da -> has_metadata da.
Proof.
  unfold copy_metadata, set_var_attr. cbn [ds_variables].
  rewrite !lookup_alter_eq.
  destruct (ds_variables ds !! v) as [da0 |]; cbn; [| discriminate].
  intros [= <-]. split; cbn [da_attrs].
  - rewrite lookup_insert_ne by discriminate. apply lookup_insert_eq.
  - apply lookup_insert_eq.
Qed.

Lemma copy_metadata_other ds v v' :
  v <> v' -> ds_variables (copy_metadata ds v') !! v = ds_variables ds !! v.
Proof.
  intros Hne. unfold copy_metadata, set_var_attr. cbn [ds_variables].
  now rewrite !lookup_alter_ne by congruence.
Qed.

Lemma propagate_frame l ds :
  dom (ds_variables (foldl copy_metadata ds l)) = dom (ds_variables ds)
  /\ ds_coord_names (foldl copy_metadata ds l) = ds_coord_names ds
  /\ ds_attrs (foldl copy_metadata ds l) = ds_attrs ds.
Proof.
  revert ds. induction l as [| v l IH]; intros ds; [easy |].
  cbn [foldl]. destruct (IH (copy_metadata ds v)) as (-> & -> & ->).
  apply copy_metadata_frame.
Qed.

Lemma propagate_marks l ds v :
  v ∈ l \/ (forall da, ds_variables ds !! v = Some da -> has_metadata da) ->
  forall da, ds_variables (foldl copy_metadata ds l) !! v = Some da ->
             has_metadata da.
Proof.
  revert ds. induction l as [| a l IH]; intros ds Hv.
  - destruct Hv as [Hv | Hv]; [now apply elem_of_nil in Hv | exact Hv].
  - cbn [foldl]. apply IH.
    destruct (decide (v = a)) as [-> | Hne].
    + right. apply copy_metadata_here.
    + destruct Hv as [Hv | Hv].
      * left. apply elem_of_cons in Hv as [? | ?]; [congruence | assumption].
      * right. intros da. rewrite copy_metadata_other by exact Hne. apply Hv.
Qed.

(** Lines 286-289 leave the dataset as it is, but for the two attributes
    every data variable now has. *)
Lemma propagate_metadata_spec clm :
  dom (ds_variables (propagate_metadata clm)) = dom (ds_variables clm)
  /\ ds_coord_names (propagate_metadata clm) = ds_coord_names clm
  /\ ds_attrs (propagate_metadata clm) = ds_attrs clm
  /\ forall v da,
       ds_variables (propagate_metadata clm) !! v = Some da ->
       v ∉ ds_coord_names (propagate_metadata clm) ->
       has_metadata da.
Proof.
  unfold propagate_metadata.
  destruct (propagate_frame (data_vars clm) clm) as (Hd & Hc & Ha).
  repeat split; try assumption.
  - eapply propagate_marks; [| eassumption]. left.
    unfold data_vars. apply elem_of_elements, elem_of_difference.
    split; [| now rewrite <- Hc].
    rewrite <- Hd. apply elem_of_dom. eauto.
  - eapply propagate_marks; [| eassumption]. left.
    unfold data_vars. apply elem_of_elements, elem_of_difference.
    split; [| now rewrite <- Hc].
    rewrite <- Hd. apply elem_of_dom. eauto.
Qed.

Lemma attach_units_dom units clm :
  dom (ds_variables (attach_units units clm)) = dom (ds_variables clm)
  /\ ds_attrs (attach_units units clm) = ds_attrs clm.
Proof.
  unfold attach_units. revert clm.
  induction units as [| kv units IH]; intros clm; [easy |].
  cbn [foldl]. destruct (bool_decide _).
  - destruct (IH (set_var_attr (fst kv) "units" (AttrStr (snd kv)) clm))
      as [-> ->].
    now rewrite set_var_attr_dom.
  - apply IH.
Qed.

Lemma label_grid_spec units clm0 :
  is_Some (ds_variables clm0 !! "lambert_conformal_conic") ->
  exists clm1,
    label_grid units clm0 = Return clm1
    /\ ds_variables clm1 !! "lambert_conformal_conic" = None
    /\ ds_attrs clm1 !! "crs" = Some (AttrStr daymet_crs)
    /\ ds_attrs clm1 !! "nodatavals" = Some (AttrFloats [0%Q]).
Proof.
  intros Hl. unfold label_grid, drop_vars. cbn [forallb].
  destruct (attach_units_dom units clm0) as [Hd _].
  rewrite andb_true_r, bool_decide_eq_true_2.
  2:{ apply elem_of_dom. rewrite Hd. now apply elem_of_dom. }
  eexists. split; [reflexivity |]. cbn.
  split; [apply lookup_delete_eq |]. split.
  - rewrite lookup_insert_ne by discriminate. apply lookup_insert_eq.
  - apply lookup_insert_eq.
Qed.

(** C7.  After a successful merge into [clm0], [get_bygeom] hands to the
    mask the result of [post_merge].  The dataset-level stage drops the
    variable [lambert_conformal_conic], sets [crs] to the fixed Lambert
    Conformal Conic string and [nodatavals] to [(0.0,)], and attaches the
    affine transform; the last stage gives every data variable the same
    [crs] and [nodatavals], and changes nothing else. *)
Theorem get_bygeom_metadata (daymet : Daymet) (pet_params : PetParams)
    (clm0 : Dataset) (transform : Affine) (width height : Z) :
  is_Some (ds_variables clm0 !! "lambert_conformal_conic") ->
  (forall clm1, label_grid (daymet_units daymet) clm0 = Return clm1 ->
                get_transform clm1 ("y", "x") = Return (transform, width, height)) ->
  daymet_crs = "+proj=lcc +lat_1=25 +lat_2=60 +lat_0=42.5 +lon_0=-100 +x_0=0 +y_0=0 +ellps=WGS84 +units=km +no_defs"
  /\ (forall sched geometry dates crs variables region time_scale pet ssl g
             urls kwds,
        plan_bygeom geometry dates crs variables region time_scale pet
          = Return (daymet, g, urls, kwds) ->
        fetch_and_merge sched urls kwds ssl = Return clm0 ->
        get_bygeom sched geometry dates crs variables region time_scale pet
                   pet_params ssl
        = (clm ← post_merge daymet pet pet_params clm0;
           xarray_geomask clm g DEF_CRS))
  /\ (exists clm2,
        set_grid_metadata (daymet_units daymet) clm0 = Return clm2
        /\ ds_variables clm2 !! "lambert_conformal_conic" = None
        /\ ds_attrs clm2 !! "crs" = Some (AttrStr daymet_crs)
        /\ ds_attrs clm2 !! "nodatavals" = Some (AttrFloats [0%Q])
        /\ ds_attrs clm2 !! "transform" = Some (AttrAffine transform)
        /\ post_merge daymet None pet_params clm0
           = Return (propagate_metadata clm2)
        /\ ds_variables (propagate_metadata clm2) !! "lambert_conformal_conic"
           = None
        /\ ds_attrs (propagate_metadata clm2) = ds_attrs clm2)
  /\ (forall pet clm,
        post_merge daymet pet pet_params clm0 = Return clm ->
        forall v da,
          ds_variables clm !! v = Some da -> v ∉ ds_coord_names clm ->
          has_metadata da).
Proof.
  intros Hl Ht. split; [reflexivity |]. split; [| split].
  - intros sched geometry dates crs variables region time_scale pet ssl g
           urls kwds Hplan Hmerge.
    unfold get_bygeom. rewrite Hplan. cbn. rewrite Hmerge. reflexivity.
  - destruct (label_grid_spec (daymet_units daymet) clm0 Hl)
      as (clm1 & H1 & Hdrop & Hcrs & Hnd).
    pose proof (Ht clm1 H1) as Htr.
    assert (H2 : set_grid_metadata (daymet_units daymet) clm0
                 = Return (set_attr "res"
                             (AttrFloats [af_a transform; af_e transform])
                             (set_attr "transform" (AttrAffine transform) clm1))).
    { unfold set_grid_metadata. rewrite H1. cbn. rewrite Htr. reflexivity. }
    eexists. split; [exact H2 |].
    destruct (propagate_metadata_spec
                (set_attr "res" (AttrFloats [af_a transform; af_e transform])
                   (set_attr "transform" (AttrAffine transform) clm1)))
      as (Hd & _ & Ha & _).
    repeat split.
    + exact Hdrop.
    + cbn. now rewrite !lookup_insert_ne by discriminate.
    + cbn. now rewrite !lookup_insert_ne by discriminate.
    + cbn. rewrite lookup_insert_ne by discriminate. apply lookup_insert_eq.
    + unfold post_merge. rewrite H2. reflexivity.
    + apply not_elem_of_dom. rewrite Hd. now apply not_elem_of_dom.
    + exact Ha.
  - intros pet clm Hpost v da Hv Hc.
    unfold post_merge in Hpost.
    destruct (set_grid_metadata (daymet_units daymet) clm0) as [clm2 |];
      [| discriminate].
    cbn in Hpost.
    destruct (match pet with
              | Some method => potential_et_grid clm2 method pet_params
              | None => Return clm2
              end) as [clm3 |]; [| discriminate].
    cbn in Hpost. injection Hpost as <-.
    destruct (propagate_metadata_spec clm3) as (_ & _ & _ & Hm).
    now apply (Hm v da).
Qed.

End GridMode.

Section Transport.
Context `{Collaborators}.

Lemma run_workers_fills reqs ssl sched :
  (forall rq, rq ∈ reqs -> fetch (fst rq) (snd rq) ssl = Return (payload_of ssl rq)) ->
  forall buf,
    length buf = length reqs ->
    exists buf',
      run_workers reqs ssl sched buf = Return buf'
      /\ length buf' = length reqs
      /\ forall j rq,
           reqs !! j = Some rq ->
           (j ∈ sched \/ buf !! j = Some (Some (payload_of ssl rq))) ->
           buf' !! j = Some (Some (payload_of ssl rq)).
Proof.
  intros Hfetch. induction sched as [| i sched IH]; intros buf Hlen.
  - exists buf. split; [reflexivity |]. split; [exact Hlen |].
    intros j rq _ [Hj | Hj]; [now apply elem_of_nil in Hj | exact Hj].
  - cbn [run_workers]. destruct (reqs !! i) as [[url kwds] |] eqn:Hi.
    + pose proof (Hfetch (url, kwds)) as Hf. cbn [fst snd] in Hf.
      rewrite Hf by (eapply list_elem_of_lookup_2; eauto).
      cbn.
      destruct (IH (<[i := Some (payload_of ssl (url, kwds))]> buf))
        as (buf' & Hrun & Hlen' & Hfill).
      { now rewrite length_insert. }
      exists buf'. split; [exact Hrun |]. split; [exact Hlen' |].
      intros j rq Hj Hin. apply Hfill; [exact Hj |].
      destruct (decide (j = i)) as [-> | Hne].
      * right. rewrite Hi in Hj. injection Hj as <-.
        apply list_lookup_insert_eq. rewrite Hlen.
        now apply lookup_lt_Some in Hi.
      * destruct Hin as [Hin | Hin].
        -- left. apply elem_of_cons in Hin as [? | ?]; [congruence | assumption].
        -- right. now rewrite list_lookup_insert_ne by congruence.
    + destruct (IH buf Hlen) as (buf' & Hrun & Hlen' & Hfill).
      exists buf'. split; [exact Hrun |]. split; [exact Hlen' |].
      intros j rq Hj Hin. apply Hfill; [exact Hj |].
      destruct Hin as [Hin | Hin]; [| now right].
      left. apply elem_of_cons in Hin as [-> | ?]; [congruence | assumption].
Qed.

Lemma for_each_slots (payloads : list bytes) :
  for_each (fun slot : option bytes =>
              match slot with
              | Some r => Return r
              | None => Raise (OtherError "TimeoutError")
              end) (map Some payloads)
  = Return payloads.
Proof.
  induction payloads as [| b bs IH]; [reflexivity |].
  cbn [map for_each]. now rewrite IH.
Qed.

(** Whatever the completion order, the transport hands back the payloads
    in request order. *)
Lemma retrieve_in_request_order sched urls kwds ssl :
  completion_order sched (length (zip urls kwds)) ->
  (forall rq, rq ∈ zip urls kwds ->
              fetch (fst rq) (snd rq) ssl = Return (payload_of ssl rq)) ->
  retrieve sched urls kwds ssl = Return (map (payload_of ssl) (zip urls kwds)).
Proof.
  intros Hperm Hfetch. unfold retrieve.
  destruct (run_workers_fills (zip urls kwds) ssl sched Hfetch
              (replicate (length (zip urls kwds)) None))
    as (buf & Hrun & Hlen & Hfill).
  { apply length_replicate. }
  rewrite Hrun. cbn.
  assert (Hbuf : buf = map Some (map (payload_of ssl) (zip urls kwds))).
  { apply list_eq. intros j. rewrite !list_lookup_fmap.
    destruct (zip urls kwds !! j) as [rq |] eqn:Hj; cbn.
    - apply (Hfill j rq Hj). left.
      unfold completion_order in Hperm. rewrite Hperm.
      apply elem_of_seq. apply lookup_lt_Some in Hj. lia.
    - apply lookup_ge_None. rewrite Hlen. now apply lookup_ge_None. }
  rewrite Hbuf. apply for_each_slots.
Qed.

Lemma bind_return {A B} (a : A) (k : A -> result B) : (Return a ≫= k) = k a.
Proof. reflexivity. Qed.

Lemma payload_of_fetch ssl rq :
  (exists payload, fetch (fst rq) (snd rq) ssl = Return payload) ->
  fetch (fst rq) (snd rq) ssl = Return (payload_of ssl rq).
Proof. intros [payload Hp]. unfold payload_of. now rewrite Hp. Qed.

Lemma fetch_group_in_plan_order sched ssl group :
  completion_order sched (length group) ->
  (forall rq, rq ∈ group -> exists payload, fetch (fst rq) (snd rq) ssl = Return payload) ->
  fetch_group sched ssl group = series_in_plan_order ssl group.
Proof.
  intros Hperm Hfetch. unfold fetch_group, series_in_plan_order.
  destruct group as [| rq0 group]; [reflexivity |].
  set (grp := rq0 :: group) in *.
  change (unzip_requests grp) with (Return (grp.*1, grp.*2)).
  rewrite !bind_return. cbv beta iota.
  rewrite (retrieve_in_request_order sched (grp.*1) (grp.*2) ssl).
  - rewrite zip_fst_snd.
    rewrite (for_each_return (fun r : Request => fetch (fst r) (snd r) ssl)
               (payload_of ssl) grp); [reflexivity |].
    intros rq Hrq. apply payload_of_fetch, Hfetch. now apply list_elem_of_In.
  - now rewrite zip_fst_snd.
  - rewrite zip_fst_snd. intros rq Hrq. now apply payload_of_fetch, Hfetch.
Qed.

Lemma for_each_from_ext {A B} (f : nat -> A -> result B) (g : A -> result B)
    (xs : list A) (start : nat) :
  (forall i x, xs !! i = Some x -> f (start + i)%nat x = g x) ->
  for_each_from start f xs = for_each g xs.
Proof.
  revert start. induction xs as [| x xs IH]; intros start Hfg; [reflexivity |].
  cbn [for_each_from for_each].
  rewrite <- (Hfg 0%nat x eq_refl), Nat.add_0_r.
  rewrite (IH (S start)).
  - destruct (f start x); [| reflexivity]. cbn.
    destruct (for_each g xs); reflexivity.
  - intros i y Hy. rewrite <- (Hfg (S i) y Hy). f_equal. lia.
Qed.

Lemma assemble_in_plan_order_eq scheds ssl url_kwds :
  (forall i group, url_kwds !! i = Some group ->
                   completion_order (scheds i) (length group)) ->
  (forall group rq, group ∈ url_kwds -> rq ∈ group ->
                    exists payload, fetch (fst rq) (snd rq) ssl = Return payload) ->
  assemble scheds ssl url_kwds = assemble_in_plan_order ssl url_kwds.
Proof.
  intros Hsched Hfetch. unfold assemble, assemble_in_plan_order.
  rewrite (for_each_from_ext _ (series_in_plan_order ssl)); [reflexivity |].
  intros i group Hi. cbn [Nat.add]. apply fetch_group_in_plan_order.
  - now apply Hsched.
  - intros rq Hrq. apply (Hfetch group rq); [| exact Hrq].
    eapply list_elem_of_lookup_2, Hi.
Qed.

(** C8.  With the plan fixed and a payload served for each of its
    requests, the table [get_bycoords] assembles does not depend on the
    order in which the fetches of each [retrieve] call complete: the
    payloads are consumed in plan order (variables in list order, windows in
    list order within a variable), so two runs give the same result. *)
Theorem get_bycoords_order_independent (scheds1 scheds2 : nat -> list nat)
    (coords : list Q) (dates : Dates) (crs : string)
    (variables : option (list string)) (region time_scale : string)
    (pet : option string) (pet_params : PetParams) (ssl : SSL)
    (coord : Q * Q) (url_kwds : list (list Request)) :
  plan_bycoords coords dates crs variables region time_scale pet
    = Return (coord, url_kwds) ->
  (forall i group, url_kwds !! i = Some group ->
                   completion_order (scheds1 i) (length group)
                   /\ completion_order (scheds2 i) (length group)) ->
  (forall group rq, group ∈ url_kwds -> rq ∈ group ->
                    exists payload, fetch (fst rq) (snd rq) ssl = Return payload) ->
  assemble scheds1 ssl url_kwds = assemble_in_plan_order ssl url_kwds
  /\ assemble scheds2 ssl url_kwds = assemble_in_plan_order ssl url_kwds
  /\ get_bycoords scheds1 coords dates crs variables region time_scale pet
                  pet_params ssl
     = get_bycoords scheds2 coords dates crs variables region time_scale pet
                    pet_params ssl.
Proof.
  intros Hplan Hsched Hfetch.
  assert (E1 : assemble scheds1 ssl url_kwds = assemble_in_plan_order ssl url_kwds).
  { apply assemble_in_plan_order_eq; [| exact Hfetch].
    intros i group Hi. now apply Hsched. }
  assert (E2 : assemble scheds2 ssl url_kwds = assemble_in_plan_order ssl url_kwds).
  { apply assemble_in_plan_order_eq; [| exact Hfetch].
    intros i group Hi. now apply Hsched. }
  split; [exact E1 |]. split; [exact E2 |].
  unfold get_bycoords. rewrite Hplan. cbn. now rewrite E1, E2.
Qed.

End Transport.

Section WorkedRequests.


Lemma coord_urls_grouped_witness :
  exists groups,
    @_coord_urls demo_service 1855 point_coord "na" ["prcp"; "tmin"]
                 windows_2001_2003
    = Return groups
    /\ length (mjoin groups) = 6%nat.
Proof.
  destruct (@coord_urls_grouped demo_service 1855 Monthly point_coord "na"
              ["prcp"; "tmin"] windows_2001_2003 eq_refl)
    as (groups & Hret & _ & _ & Hlen & _).
  exists groups. split; [exact Hret | exact Hlen].
Defined.

Lemma gridded_urls_product_witness :
  exists reqs,
    @_gridded_urls demo_service 1840 grid_bounds "na" ["prcp"; "tmin"]
                   windows_2001_2003
    = Return reqs
    /\ length reqs = 6%nat.
Proof.
  destruct (@gridded_urls_product demo_service 1840 Daily grid_bounds
              "na" ["prcp"; "tmin"] windows_2001_2003 eq_refl)
    as (reqs & Hret & Hlen & _).
  exists reqs. split; [exact Hret | exact Hlen].
Defined.

Lemma filename_convention_witness :
  (fun name => name "prcp") <$> _get_filename "pr" !! 1855%Z
  = Some "prcp_monttl_pr"
  /\ (fun name => name "tmax") <$> _get_filename "pr" !! 1852%Z
     = Some "tmax_annavg_pr".
Proof.
  destruct (@filename_convention demo_service "pr") as (_ & Hm & _ & Havg & _).
  split; [exact Hm |]. apply (Havg "tmax"). discriminate.
Defined.

Lemma get_bygeom_merge_failure_witness :
  @get_bygeom demo [1; 0]%nat (GeomBounds grid_bounds) (YearList [2010%Z])
              "epsg:4326" (Some grid_variables) "na" "daily" None None None
  = Raise (ServiceError service_msg
             (ValueError "conflicting sizes for dimension")).
Proof.
  refine (proj1 (@get_bygeom_merge_failure demo [1; 0]%nat
                   (GeomBounds grid_bounds) (YearList [2010%Z]) "epsg:4326"
                   (Some grid_variables) "na" "daily" None None None
                   (demo_daymet (Some grid_variables) "na")
                   (demo_polygon (GeomBounds grid_bounds))
                   (grid_plan.*1) (grid_plan.*2)
                   (map demo_payload (grid_plan.*2))
                   "conflicting sizes for dimension" _ _ _)).
  - reflexivity.
  - reflexivity.
  - reflexivity.
Defined.

Lemma get_bycoords_labels_witness :
  exists out,
    @get_bycoords demo (fun _ => [1; 0]%nat) [-100; 40]%Q (YearList point_years)
                  "epsg:4326" (Some point_variables) "na" "daily" None None None
    = Return out
    /\ df_columns out !! 0%nat = Some "prcp (mm/day)".
Proof.
  destruct (@get_bycoords_labels demo (fun _ => [1; 0]%nat) [-100; 40]%Q
              (YearList point_years) "epsg:4326" (Some point_variables)
              "na" "daily" None None None point_coord point_plan
              (point_table (fun _ => [1; 0]%nat)))
    as (out & Hget & _ & _ & _ & Hprcp).
  - reflexivity.
  - reflexivity.
  - exists out. split; [exact Hget |]. apply Hprcp. reflexivity.
Defined.

Lemma get_bygeom_metadata_witness :
  exists clm2,
    @set_grid_metadata demo (daymet_units (demo_daymet None "na")) demo_dataset
    = Return clm2
    /\ ds_variables clm2 !! "lambert_conformal_conic" = None
    /\ ds_attrs clm2 !! "crs" = Some (AttrStr daymet_crs)
    /\ ds_attrs clm2 !! "nodatavals" = Some (AttrFloats [0%Q]).
Proof.
  destruct (@get_bygeom_metadata demo (demo_daymet None "na") None demo_dataset
              (mkAffine 1 0 0 0 (-1) 0) 1%Z 1%Z)
    as (_ & _ & (clm2 & Hset & Hdrop & Hcrs & Hnd & _) & _).
  - eexists. reflexivity.
  - intros clm1 _. reflexivity.
  - exists clm2. repeat split; assumption.
Defined.

Lemma point_plan_groups :
  point_plan
  = map (fun v =>
           map (fun w : Window =>
                  (@spec_url demo_service 1840 Daily "na" v (fst w),
                   {[ "params" := @coord_params demo_service (fst point_coord)
                                    (snd point_coord) v w ]} : Kwds))
               (map year_window point_years))
        point_variables.
Proof.
  unfold point_plan, point_coord.
  now rewrite (@coord_urls_explicit demo_service 1840 Daily _ _ _ _ _ eq_refl).
Qed.

Lemma get_bycoords_order_independent_witness :
  @get_bycoords demo (fun _ => [0; 1]%nat) [-100; 40]%Q (YearList point_years)
                "epsg:4326" (Some point_variables) "na" "daily" None None None
  = @get_bycoords demo (fun _ => [1; 0]%nat) [-100; 40]%Q (YearList point_years)
                  "epsg:4326" (Some point_variables) "na" "daily" None None None.
Proof.
  destruct (@get_bycoords_order_independent demo
              (fun _ => [0; 1]%nat) (fun _ => [1; 0]%nat) [-100; 40]%Q
              (YearList point_years) "epsg:4326" (Some point_variables)
              "na" "daily" None None None point_coord point_plan)
    as (_ & _ & Heq).
  - reflexivity.
  - intros i group Hi. rewrite point_plan_groups in Hi.
    apply list_lookup_fmap_Some in Hi as (v & -> & _).
    rewrite !length_map. unfold completion_order. cbn [seq length point_years].
    split; [reflexivity | apply Permutation_swap].
  - intros group rq _ _. eexists. reflexivity.
  - exact Heq.
Defined.

End WorkedRequests.

(* ===================================================================== *)
(** * Further properties of the code                                       *)
(* ===================================================================== *)

Section RegionResolverMore.

Lemma contains_pr_na g : contains pr_box g = true -> contains na_box g = true.
Proof.
  intros Hc. apply contains_within_closure in Hc as [Hne Hall].
  apply contains_strictly_inside. split; [exact Hne |].
  eapply List.Forall_impl; [| exact Hall].
  intros p Hp. now apply pr_inside_na.
Qed.

Lemma contains_hi_not_na g : contains hi_box g = true -> contains na_box g = false.
Proof.
  intros Hc. pose proof (contains_nonempty _ _ Hc) as Hne.
  destruct (vertices g) as [| v vs] eqn:Hv; [congruence |].
  assert (Hin : In v (vertices g)) by (rewrite Hv; now left).
  destruct (contains na_box g) eqn:Hna; [exfalso | reflexivity].
  apply (hi_disjoint_na v).
  - now apply (contains_vertex_within hi_box g).
  - now apply (contains_vertex_within na_box g).
Qed.

(** X1.  Which region [_get_region] gives: na exactly for the geometries the
    na rectangle contains, hi exactly for those the hi rectangle contains,
    the invalid-range error exactly for those neither contains, and pr for
    no geometry at all. *)
Theorem get_region_characterised (gid : string) (geom : Geometry) :
  (_get_region gid geom = Return "na" <-> contains na_box geom = true)
  /\ (_get_region gid geom = Return "hi" <-> contains hi_box geom = true)
  /\ (_get_region gid geom = Raise (InvalidInputRange (outside_msg gid))
      <-> contains na_box geom = false /\ contains hi_box geom = false)
  /\ _get_region gid geom <> Return "pr".
Proof.
  rewrite get_region_unfold.
  destruct (contains na_box geom) eqn:Hna.
  - assert (Hhi : contains hi_box geom = false).
    { destruct (contains hi_box geom) eqn:Hhi; [| reflexivity].
      apply contains_hi_not_na in Hhi. congruence. }
    rewrite Hhi. repeat split; try discriminate; try congruence.
    intros [? _]. discriminate.
  - destruct (contains hi_box geom) eqn:Hhi.
    + repeat split; try discriminate; try congruence. intros [_ ?]. discriminate.
    + destruct (contains pr_box geom) eqn:Hpr.
      { apply contains_pr_na in Hpr. congruence. }
      repeat split; try discriminate; try congruence.
Qed.

Lemma for_each_app {A B} (f : A -> result B) (xs ys : list A) (us : list B) :
  for_each f xs = Return us ->
  for_each f (xs ++ ys)%list
  = match for_each f ys with
    | Return vs => Return (us ++ vs)%list
    | Raise e => Raise e
    end.
Proof.
  revert us. induction xs as [| x xs IH]; intros us.
  - cbn. intros [= <-]. now destruct (for_each f ys).
  - cbn [for_each app]. destruct (f x) as [y |]; [| discriminate].
    destruct (for_each f xs) as [us' |] eqn:Hxs; [| discriminate].
    intros [= <-]. rewrite (IH us' eq_refl).
    now destruct (for_each f ys).
Qed.

Lemma for_each_total {A B} (f : A -> result B) (xs : list A) :
  Forall (fun x => exists y, f x = Return y) xs ->
  exists ys, for_each f xs = Return ys.
Proof.
  induction 1 as [| x xs [y Hy] _ [ys IH]]; [now exists [] |].
  exists (y :: ys). cbn [for_each]. now rewrite Hy, IH.
Qed.

(** X2.  [get_region] on a table of geometries: when every row has a
    region, it returns them row by row; otherwise it raises the
    invalid-range error that names the id of the first row without one. *)
Theorem get_region_rows (geodf : list (string * Geometry)) :
  (Forall (fun row => exists r, _get_region (fst row) (snd row) = Return r) geodf ->
   exists regions,
     get_region geodf = Return regions
     /\ Forall2 (fun row r => _get_region (fst row) (snd row) = Return r)
                geodf regions)
  /\ (forall before row after,
        geodf = (before ++ row :: after)%list ->
        Forall (fun row => exists r, _get_region (fst row) (snd row) = Return r)
               before ->
        first_containing region_bbox (snd row) = None ->
        get_region geodf = Raise (InvalidInputRange (outside_msg (fst row)))).
Proof.
  split.
  - intros Hall. destruct (for_each_total _ _ Hall) as [regions Hr].
    exists regions. split; [exact Hr |]. now apply for_each_inv in Hr.
  - intros before row after -> Hbefore Hnone.
    destruct (for_each_total _ _ Hbefore) as [regions Hr].
    unfold get_region. rewrite (for_each_app _ _ _ _ Hr).
    cbn [for_each]. unfold _get_region at 1. now rewrite Hnone.
Qed.

End RegionResolverMore.

Section RequestBuilderMore.
Context `{Service}.

Lemma get_filename_unknown code region :
  scale_of_code code = None -> _get_filename region !! code = None.
Proof.
  intros Hsc. unfold _get_filename. cbn [list_to_map foldr fst snd].
  unfold scale_of_code in Hsc.
  destruct (Z.eqb_spec code 1840); [discriminate |].
  destruct (Z.eqb_spec code 1855); [discriminate |].
  destruct (Z.eqb_spec code 1852); [discriminate |].
  rewrite !lookup_insert_ne by congruence. apply lookup_empty.
Qed.

Lemma file_url_unknown code region v s :
  scale_of_code code = None ->
  file_url (_get_filename region) code v s = Raise (KeyError (str_int code)).
Proof.
  intros Hsc. unfold file_url, getitem.
  now rewrite (get_filename_unknown _ _ Hsc).
Qed.

Lemma list_prod_nil_r {A B} (xs : list A) : list_prod xs (@nil B) = [].
Proof. induction xs as [| x xs IH]; [reflexivity | exact IH]. Qed.

Lemma for_each_nil_groups {A B C} (f : A -> B -> result C) (xs : list A) :
  for_each (fun x => for_each (f x) []) xs = Return (map (fun _ => []) xs).
Proof. now apply for_each_return. Qed.

Lemma join_nil_groups {A B} (xs : list A) :
  mjoin (map (fun _ => @nil B) xs) = [].
Proof. induction xs as [| x xs IH]; [reflexivity | exact IH]. Qed.

Lemma builders_edge_cases (code : Z) (coord : Q * Q) (bounds : Q * Q * Q * Q)
    (region : string) (variables : list string) (dates : list Window) :
  (scale_of_code code = None -> variables <> [] -> dates <> [] ->
   _coord_urls code coord region variables dates = Raise (KeyError (str_int code))
   /\ _gridded_urls code bounds region variables dates
      = Raise (KeyError (str_int code)))
  /\ _coord_urls code coord region [] dates = Return []
  /\ _coord_urls code coord region variables [] = Return (map (fun _ => []) variables)
  /\ _gridded_urls code bounds region [] dates = Return []
  /\ _gridded_urls code bounds region variables [] = Return [].
Proof.
  destruct coord as [lon lat]. destruct bounds as [[[west south] east] north].
  split; [| split; [| split; [| split]]].
  - intros Hsc Hv Hd.
    destruct variables as [| v vs]; [congruence |].
    destruct dates as [| w ws]; [congruence |].
    unfold _coord_urls, _gridded_urls. cbn [list_prod map app for_each].
    now rewrite (file_url_unknown _ _ _ _ Hsc).
  - reflexivity.
  - unfold _coord_urls. apply for_each_nil_groups.
  - reflexivity.
  - unfold _gridded_urls. now rewrite list_prod_nil_r.
Qed.

(** X3.  An endpoint code other than 1840, 1855 and 1852 makes both
    builders raise [KeyError] with that code as soon as there is a variable
    and a window to build a request for; with no variable or no window they
    build nothing and raise nothing, whatever the code. *)
Theorem builders_unknown_code (code : Z) (coord : Q * Q) (bounds : Q * Q * Q * Q)
    (region : string) (variables : list string) (dates : list Window) :
  (scale_of_code code = None -> variables <> [] -> dates <> [] ->
   _coord_urls code coord region variables dates = Raise (KeyError (str_int code))
   /\ _gridded_urls code bounds region variables dates
      = Raise (KeyError (str_int code)))
  /\ _coord_urls code coord region [] dates = Return []
  /\ _coord_urls code coord region variables [] = Return (map (fun _ => []) variables)
  /\ _gridded_urls code bounds region [] dates = Return []
  /\ _gridded_urls code bounds region variables [] = Return [].
Proof.
  pose proof (builders_edge_cases code coord bounds region variables dates)
    as (Herr & Hc0 & Hc1 & Hg0 & Hg1).
  split; [| split; [| split; [| split]]].
  - intros Hsc Hv Hd. now apply Herr.
  - exact Hc0.
  - exact Hc1.
  - exact Hg0.
  - exact Hg1.
Qed.

(** X4.  Point mode and grid mode address the same remote files in the
    same order: for equal code, region, variables and windows, the URLs of
    the flattened point-mode groups are the URLs of the grid-mode requests,
    and when one builder raises the other raises the same error. *)
Theorem builders_same_files (code : Z) (coord : Q * Q) (bounds : Q * Q * Q * Q)
    (region : string) (variables : list string) (dates : list Window) :
  match _coord_urls code coord region variables dates,
        _gridded_urls code bounds region variables dates with
  | Return groups, Return reqs => map fst (mjoin groups) = map fst reqs
  | Raise e1, Raise e2 => e1 = e2
  | _, _ => False
  end.
Proof.
  destruct (scale_of_code code) as [sc |] eqn:Hsc.
  - destruct coord as [lon lat]. destruct bounds as [[[west south] east] north].
    rewrite (coord_urls_explicit code sc lon lat region variables dates Hsc).
    rewrite (gridded_urls_explicit code sc west south east north region
               variables dates Hsc).
    rewrite join_groups, !map_map. reflexivity.
  - destruct (builders_edge_cases code coord bounds region variables dates)
      as (Herr & Hc0 & Hc1 & Hg0 & Hg1).
    destruct variables as [| v vs]; [now rewrite Hc0, Hg0 |].
    destruct dates as [| w ws].
    + rewrite Hc1, Hg1. now rewrite join_nil_groups.
    + destruct (Herr Hsc) as [-> ->]; congruence.
Qed.

End RequestBuilderMore.

Section ColumnLabelsMore.

Lemma normalize_label_plain c : plain c -> normalize_label c = c.
Proof.
  intros [Hb Hq]. unfold normalize_label.
  change (replace ?s ("[unit=" ++ dquote) ?n)
    with (replace_from (String "[" ("unit=" ++ dquote)) n 0 s).
  rewrite (replace_from_absent _ _ _ _ Hb).
  change (replace ?s (dquote ++ "]") ?n)
    with (replace_from (String dquote_char "]") n 0 s).
  now apply replace_from_absent.
Qed.

Lemma normalized_label_plain name u :
  plain name -> plain u -> plain (normalized_label name u).
Proof.
  intros [Hnb Hnq] [Hub Huq]. unfold plain, normalized_label.
  rewrite !has_char_app, Hnb, Hnq, Hub, Huq. split; reflexivity.
Qed.

(** X5.  Line 135 leaves alone every label written without a bracket and a
    double quote, so normalising twice is normalising once: a raw label
    [name[unit=u]] normalised a second time stays [name (u)]. *)
Theorem normalize_label_idempotent :
  (forall c, plain c -> normalize_label c = c)
  /\ (forall name u,
        plain name -> plain u ->
        normalize_label (normalize_label (raw_label name u))
        = normalized_label name u).
Proof.
  split; [exact normalize_label_plain |].
  intros name u Hn Hu. rewrite (normalize_raw_label name u Hn Hu).
  now apply normalize_label_plain, normalized_label_plain.
Qed.

Lemma final_label_not_prcp_mm c : final_label c <> "prcp (mm)".
Proof.
  unfold final_label. destruct (String.eqb_spec c "prcp (mm)"); [discriminate | assumption].
Qed.

(** X6.  Lines 135-138 never leave a column labelled [prcp (mm)], whatever
    the labels were; they keep the number of columns, the index and the
    rows, and a label that does not read [prcp (mm)] after line 135 is kept
    as line 135 wrote it. *)
Theorem normalize_columns_invariants (clm : DataFrame) :
  ~ In "prcp (mm)" (df_columns (normalize_columns clm))
  /\ length (df_columns (normalize_columns clm)) = length (df_columns clm)
  /\ df_index (normalize_columns clm) = df_index clm
  /\ df_rows (normalize_columns clm) = df_rows clm
  /\ forall i c,
       df_columns clm !! i = Some c ->
       normalize_label c <> "prcp (mm)" ->
       df_columns (normalize_columns clm) !! i = Some (normalize_label c).
Proof.
  rewrite normalize_columns_labels.
  destruct (normalize_columns_frame clm) as [Hi Hr].
  split; [| split; [| split; [| split]]].
  - intros Hin. apply in_map_iff in Hin as (c & Hc & _).
    now apply final_label_not_prcp_mm in Hc.
  - apply length_map.
  - exact Hi.
  - exact Hr.
  - intros i c Hc Hne. rewrite list_lookup_fmap, Hc. cbn. f_equal.
    unfold final_label.
    now destruct (String.eqb_spec (normalize_label c) "prcp (mm)").
Qed.

End ColumnLabelsMore.

Section Timestamps.

Lemma length_append (s t : string) :
  String.length (s ++ t) = (String.length s + String.length t)%nat.
Proof.
  induction s as [| c s IH]; [reflexivity |].
  rewrite append_cons. cbn [String.length]. now rewrite IH.
Qed.

Lemma pad_width_from width lo count :
  forallb (fun k => Nat.eqb (String.length (pad width (Z.of_nat k))) width)
          (seq lo count) = true ->
  forall n, (Z.of_nat lo <= n < Z.of_nat (lo + count))%Z ->
            String.length (pad width n) = width.
Proof.
  intros Hall n Hn. rewrite forallb_forall in Hall.
  specialize (Hall (Z.to_nat n)). rewrite Z2Nat.id in Hall by lia.
  apply Nat.eqb_eq, Hall, in_seq. lia.
Qed.

Lemma pad2_width n : (0 <= n <= 99)%Z -> String.length (pad 2 n) = 2%nat.
Proof.
  intros Hn. apply (pad_width_from 2 0 100); [vm_compute; reflexivity | lia].
Qed.

Lemma pad4_width n : (1677 <= n <= 2262)%Z -> String.length (pad 4 n) = 4%nat.
Proof.
  intros Hn. apply (pad_width_from 4 1677 586); [vm_compute; reflexivity | lia].
Qed.

(** X7.  For every timestamp pandas can hold, the [time_start] and
    [time_end] text written with [DATE_REQ] is twenty characters long: a
    four-digit year and two-digit month, day, hour, minute and second,
    zero-padded, between the fixed separators and the final [Z]. *)
Theorem strftime_date_req_width (t : Timestamp) :
  calendar_timestamp t ->
  strftime DATE_REQ t
  = pad 4 (year t) ++ "-" ++ pad 2 (month t) ++ "-" ++ pad 2 (day t) ++ "T"
    ++ pad 2 (hour t) ++ ":" ++ pad 2 (minute t) ++ ":" ++ pad 2 (second t) ++ "Z"
  /\ String.length (pad 4 (year t)) = 4%nat
  /\ String.length (pad 2 (month t)) = 2%nat
  /\ String.length (pad 2 (day t)) = 2%nat
  /\ String.length (pad 2 (hour t)) = 2%nat
  /\ String.length (pad 2 (minute t)) = 2%nat
  /\ String.length (pad 2 (second t)) = 2%nat
  /\ String.length (strftime DATE_REQ t) = 20%nat.
Proof.
  intros (Hy & Hmo & Hd & Hh & Hmi & Hs).
  pose proof (pad4_width (year t) Hy) as Ly.
  assert (Lmo : String.length (pad 2 (month t)) = 2%nat) by (apply pad2_width; lia).
  assert (Ld : String.length (pad 2 (day t)) = 2%nat) by (apply pad2_width; lia).
  assert (Lh : String.length (pad 2 (hour t)) = 2%nat) by (apply pad2_width; lia).
  assert (Lmi : String.length (pad 2 (minute t)) = 2%nat) by (apply pad2_width; lia).
  assert (Ls : String.length (pad 2 (second t)) = 2%nat) by (apply pad2_width; lia).
  repeat (split; [first [reflexivity | assumption] |]).
  rewrite strftime_iso8601. unfold iso8601_utc.
  rewrite !length_append, Ly, Lmo, Ld, Lh, Lmi, Ls. reflexivity.
Qed.

End Timestamps.

Section EntryPointErrors.
Context `{Collaborators}.

Lemma bind_raise {A B} (e : exn) (k : A -> result B) : (Raise e ≫= k) = Raise e.
Proof. reflexivity. Qed.

(** X8.  [get_bycoords], once the variables and dates are accepted:
    coordinates that are not a pair raise the invalid-type error for
    [coords]; a pair that, brought to the archive's reference, is not
    strictly inside the rectangle of the region (its outline included)
    raises the invalid-range error with the message of the [Daymet]
    object. *)
Theorem get_bycoords_input_errors (scheds : nat -> list nat) (coords : list Q)
    (dates : Dates) (crs : string) (variables : option (list string))
    (region time_scale : string) (pet : option string) (pet_params : PetParams)
    (ssl : SSL) (daymet : Daymet) (windows : list Window) :
  Daymet_init variables pet time_scale region = Return daymet ->
  check_dates daymet dates = Return tt ->
  dates_itr daymet dates = Return windows ->
  (length coords <> 2%nat ->
   get_bycoords scheds coords dates crs variables region time_scale pet
                pet_params ssl
   = Raise (InvalidInputType "coords" "tuple" "(lon, lat)"))
  /\ (forall lon lat c rest bbox,
        coords = [lon; lat] ->
        match_crs [(lon, lat)] crs DEF_CRS = Return (c :: rest) ->
        daymet_region_bbox daymet !! region = Some bbox ->
        ~ pt_strictly_inside bbox (Coord (fst c) (snd c)) ->
        get_bycoords scheds coords dates crs variables region time_scale pet
                     pet_params ssl
        = Raise (InvalidInputRange (daymet_invalid_bbox_msg daymet))).
Proof.
  intros Hinit Hcheck Hdates. split.
  - intros Hlen. unfold get_bycoords, plan_bycoords.
    rewrite Hinit, bind_return, Hcheck, bind_return, Hdates, bind_return.
    destruct coords as [| a [| b [| c r]]]; cbn in Hlen; try reflexivity.
    congruence.
  - intros lon lat c rest bbox -> Hcrs Hbox Hout.
    unfold get_bycoords, plan_bycoords.
    rewrite Hinit, bind_return, Hcheck, bind_return, Hdates, !bind_return.
    rewrite Hcrs, !bind_return. unfold getitem_str. rewrite Hbox, bind_return.
    assert (Hc : contains bbox (Point (Coord (fst c) (snd c))) = false).
    { destruct (contains bbox (Point (Coord (fst c) (snd c)))) eqn:E;
        [| reflexivity].
      exfalso. apply Hout. now apply in_interior_spec. }
    rewrite Hc. reflexivity.
Qed.

(** X9.  [get_bygeom], once the variables and dates are accepted and the
    geometry is brought to the archive's reference: a geometry that does
    not intersect the rectangle of the region raises the invalid-range
    error; one that does, with no variable or no window to request, raises
    the [ValueError] of unpacking nothing, not a service error. *)
Theorem get_bygeom_input_errors (sched : list nat) (geometry : GeomArg)
    (dates : Dates) (crs : string) (variables : option (list string))
    (region time_scale : string) (pet : option string) (pet_params : PetParams)
    (ssl : SSL) (daymet : Daymet) (windows : list Window) (g : Geometry)
    (bbox : Box) :
  Daymet_init variables pet time_scale region = Return daymet ->
  check_dates daymet dates = Return tt ->
  dates_itr daymet dates = Return windows ->
  geo2polygon geometry crs DEF_CRS = Return g ->
  daymet_region_bbox daymet !! region = Some bbox ->
  (intersects g bbox = false ->
   get_bygeom sched geometry dates crs variables region time_scale pet
              pet_params ssl
   = Raise (InvalidInputRange (daymet_invalid_bbox_msg daymet)))
  /\ (forall code,
        intersects g bbox = true ->
        daymet_time_codes daymet !! time_scale = Some code ->
        daymet_variables daymet = [] \/ windows = [] ->
        get_bygeom sched geometry dates crs variables region time_scale pet
                   pet_params ssl
        = Raise (ValueError "not enough values to unpack (expected 2, got 0)")).
Proof.
  intros Hinit Hcheck Hdates Hgeo Hbox. split.
  - intros Hno. unfold get_bygeom, plan_bygeom.
    rewrite Hinit, bind_return, Hcheck, bind_return, Hdates, bind_return.
    rewrite Hgeo, bind_return. unfold getitem_str. rewrite Hbox, bind_return.
    rewrite Hno. reflexivity.
  - intros code Hyes Hcode Hempty. unfold get_bygeom, plan_bygeom.
    rewrite Hinit, bind_return, Hcheck, bind_return, Hdates, bind_return.
    rewrite Hgeo, bind_return. unfold getitem_str. rewrite Hbox, bind_return.
    rewrite Hyes. cbn [negb]. rewrite Hcode, bind_return.
    destruct Hempty as [Hv | Hw].
    + rewrite Hv. rewrite (proj1 (proj2 (proj2 (proj2
        (builders_edge_cases code (0%Q, 0%Q) (bounds g) (daymet_region daymet)
           [] windows))))).
      reflexivity.
    + rewrite Hw. rewrite (proj2 (proj2 (proj2 (proj2
        (builders_edge_cases code (0%Q, 0%Q) (bounds g) (daymet_region daymet)
           (daymet_variables daymet) []))))).
      reflexivity.
Qed.

(** X10.  Under the [try] of [get_bygeom]: an error other than a
    [ValueError], raised by the transport or by the merge, reaches the
    caller as it is, not as a service error; and a [ValueError] raised by the
    transport itself is turned into the service error just as one of the
    merge is. *)
Theorem get_bygeom_error_passthrough (sched : list nat) (geometry : GeomArg)
    (dates : Dates) (crs : string) (variables : option (list string))
    (region time_scale : string) (pet : option string) (pet_params : PetParams)
    (ssl : SSL) (daymet : Daymet) (g : Geometry) (urls : list string)
    (kwds : list Kwds) :
  plan_bygeom geometry dates crs variables region time_scale pet
    = Return (daymet, g, urls, kwds) ->
  (forall e,
     (forall msg, e <> ValueError msg) ->
     retrieve sched urls kwds ssl = Raise e
     \/ (exists payloads, retrieve sched urls kwds ssl = Return payloads
                          /\ open_mfdataset payloads = Raise e) ->
     get_bygeom sched geometry dates crs variables region time_scale pet
                pet_params ssl
     = Raise e)
  /\ (forall msg,
        retrieve sched urls kwds ssl = Raise (ValueError msg) ->
        get_bygeom sched geometry dates crs variables region time_scale pet
                   pet_params ssl
        = Raise (ServiceError service_msg (ValueError msg))).
Proof.
  intros Hplan. split.
  - intros e Hne Hraise. unfold get_bygeom. rewrite Hplan, bind_return.
    cbv beta iota. unfold fetch_and_merge.
    assert (Hbody : (payloads ← retrieve sched urls kwds ssl;
                     open_mfdataset payloads) = Raise e).
    { destruct Hraise as [-> | (payloads & -> & Hm)]; [reflexivity |].
      now rewrite bind_return. }
    rewrite Hbody.
    destruct e; try reflexivity. now destruct (Hne msg).
  - intros msg Hr. unfold get_bygeom. rewrite Hplan, bind_return.
    cbv beta iota. unfold fetch_and_merge. rewrite Hr. reflexivity.
Qed.

(** X11.  A merged dataset without the variable [lambert_conformal_conic]
    makes [get_bygeom] raise the [ValueError] of [drop_vars]: it is raised
    after the [try], so it is not turned into a service error, and no
    dataset is returned. *)
Theorem get_bygeom_missing_grid_mapping (sched : list nat) (geometry : GeomArg)
    (dates : Dates) (crs : string) (variables : option (list string))
    (region time_scale : string) (pet : option string) (pet_params : PetParams)
    (ssl : SSL) (daymet : Daymet) (g : Geometry) (urls : list string)
    (kwds : list Kwds) (clm0 : Dataset) :
  plan_bygeom geometry dates crs variables region time_scale pet
    = Return (daymet, g, urls, kwds) ->
  fetch_and_merge sched urls kwds ssl = Return clm0 ->
  ds_variables clm0 !! "lambert_conformal_conic" = None ->
  get_bygeom sched geometry dates crs variables region time_scale pet
             pet_params ssl
  = Raise (ValueError
             "One or more of the specified variables cannot be found in this dataset").
Proof.
  intros Hplan Hmerge Hnone. unfold get_bygeom. rewrite Hplan, bind_return.
  cbv beta iota. rewrite Hmerge, bind_return.
  unfold post_merge, set_grid_metadata, label_grid, drop_vars. cbn [forallb].
  destruct (attach_units_dom (daymet_units daymet) clm0) as [Hd _].
  rewrite bool_decide_eq_false_2; [reflexivity |].
  intros Hsome. apply elem_of_dom in Hsome. rewrite Hd in Hsome.
  apply elem_of_dom in Hsome. rewrite Hnone in Hsome. now destruct Hsome.
Qed.

End EntryPointErrors.

Section GridMetadataMore.
Context `{Collaborators}.

Lemma metadata_only_refl keys ds : metadata_only keys ds ds.
Proof.
  split; [reflexivity |]. split; [reflexivity |].
  intros v. now destruct (ds_variables ds !! v).
Qed.

Lemma metadata_only_trans keys ds1 ds2 ds3 :
  metadata_only keys ds1 ds2 -> metadata_only keys ds2 ds3 ->
  metadata_only keys ds1 ds3.
Proof.
  intros (Hc1 & Ha1 & Hv1) (Hc2 & Ha2 & Hv2).
  split; [congruence |]. split; [congruence |].
  intros v. specialize (Hv1 v). specialize (Hv2 v).
  destruct (ds_variables ds1 !! v), (ds_variables ds2 !! v),
           (ds_variables ds3 !! v); try tauto.
  destruct Hv1 as [Hx1 Hk1], Hv2 as [Hx2 Hk2].
  split; [congruence |]. intros key Hkey.
  now rewrite Hk2, Hk1.
Qed.

Lemma metadata_only_weaken keys keys' ds ds' :
  (forall key, In key keys -> In key keys') ->
  metadata_only keys ds ds' -> metadata_only keys' ds ds'.
Proof.
  intros Hsub (Hc & Ha & Hv). split; [exact Hc |]. split; [exact Ha |].
  intros v. specialize (Hv v).
  destruct (ds_variables ds !! v), (ds_variables ds' !! v); try tauto.
  destruct Hv as [Hx Hk]. split; [exact Hx |]. intros key Hkey. apply Hk. auto.
Qed.

Lemma set_var_attr_metadata_only keys name key val ds :
  In key keys -> metadata_only keys ds (set_var_attr name key val ds).
Proof.
  intros Hkey. split; [reflexivity |]. split; [reflexivity |].
  intros v. cbn [set_var_attr ds_variables].
  destruct (decide (name = v)) as [-> | Hne].
  - rewrite lookup_alter_eq. destruct (ds_variables ds !! v) as [da |]; cbn; [| exact I].
    split; [reflexivity |]. intros key' Hkey'.
    apply lookup_insert_ne. congruence.
  - rewrite lookup_alter_ne by exact Hne.
    destruct (ds_variables ds !! v); [| exact I]. now split.
Qed.

Lemma attach_units_metadata_only units clm :
  metadata_only ["units"] clm (attach_units units clm).
Proof.
  unfold attach_units. revert clm.
  induction units as [| kv units IH]; intros clm; [apply metadata_only_refl |].
  cbn [foldl]. destruct (bool_decide _); [| apply IH].
  eapply metadata_only_trans; [| apply IH].
  apply set_var_attr_metadata_only. now left.
Qed.

Lemma propagate_metadata_only clm :
  metadata_only ["crs"; "nodatavals"] clm (propagate_metadata clm).
Proof.
  unfold propagate_metadata. generalize (data_vars clm) as l. intros l. revert clm.
  induction l as [| v l IH]; intros clm; [apply metadata_only_refl |].
  cbn [foldl]. eapply metadata_only_trans; [| apply IH].
  unfold copy_metadata.
  eapply metadata_only_trans; apply set_var_attr_metadata_only; cbn; auto.
Qed.

Lemma post_merge_none_inv daymet pet_params clm0 clm :
  post_merge daymet None pet_params clm0 = Return clm ->
  is_Some (ds_variables clm0 !! "lambert_conformal_conic")
  /\ exists transform,
       clm = propagate_metadata
               (set_attr "res" (AttrFloats [af_a transform; af_e transform])
                  (set_attr "transform" (AttrAffine transform)
                     (set_attr "nodatavals" (AttrFloats [0%Q])
                        (set_attr "crs" (AttrStr daymet_crs)
                           (mkDataset
                              (delete "lambert_conformal_conic"
                                 (ds_variables (attach_units (daymet_units daymet) clm0)))
                              (ds_coord_names (attach_units (daymet_units daymet) clm0)
                               ∖ {["lambert_conformal_conic"]})
                              (ds_attrs (attach_units (daymet_units daymet) clm0))))))).
Proof.
  unfold post_merge, set_grid_metadata, label_grid, drop_vars. cbn [forallb].
  rewrite andb_true_r. unfold mbind, result_bind, bind.
  destruct (bool_decide _) eqn:Hb; cbv beta iota; [| discriminate].
  apply bool_decide_eq_true in Hb.
  match goal with
  | |- context [get_transform ?ds ?dims] =>
      destruct (get_transform ds dims) as [[[transform w] h] |] eqn:Ht;
        cbv beta iota; [| discriminate]
  end.
  intros [= <-]. split.
  - destruct (attach_units_dom (daymet_units daymet) clm0) as [Hd _].
    apply elem_of_dom. rewrite <- Hd. now apply elem_of_dom.
  - exists transform. reflexivity.
Qed.

(** X12.  With no PET method, what [get_bygeom] does between the merge and
    the mask touches metadata only: the variables are those of the merged
    dataset without [lambert_conformal_conic], with the same values, and
    every attribute of a variable other than [units], [crs] and
    [nodatavals] is as the merge left it. *)
Theorem post_merge_metadata_only (daymet : Daymet) (pet_params : PetParams)
    (clm0 clm : Dataset) :
  post_merge daymet None pet_params clm0 = Return clm ->
  dom (ds_variables clm) = dom (ds_variables clm0) ∖ {["lambert_conformal_conic"]}
  /\ ds_coord_names clm = ds_coord_names clm0 ∖ {["lambert_conformal_conic"]}
  /\ forall v da,
       ds_variables clm !! v = Some da ->
       exists da0,
         ds_variables clm0 !! v = Some da0
         /\ da_values da = da_values da0
         /\ forall key,
              ~ In key ["units"; "crs"; "nodatavals"] ->
              da_attrs da !! key = da_attrs da0 !! key.
Proof.
  intros Hpost.
  destruct (post_merge_none_inv _ _ _ _ Hpost) as (_ & transform & ->).
  set (clm1 := attach_units (daymet_units daymet) clm0).
  match goal with
  | |- context [propagate_metadata ?ds] => set (clm2 := ds)
  end.
  pose proof (attach_units_metadata_only (daymet_units daymet) clm0) as (Hc1 & _ & Hv1).
  fold clm1 in Hc1, Hv1.
  pose proof (propagate_metadata_only clm2) as (Hc2 & _ & Hv2).
  destruct (propagate_metadata_spec clm2) as (Hd2 & _ & _ & _).
  destruct (attach_units_dom (daymet_units daymet) clm0) as [Hd1 _].
  fold clm1 in Hd1.
  split; [| split].
  - rewrite Hd2. subst clm2. cbn [set_attr ds_variables].
    rewrite dom_delete_L. now rewrite Hd1.
  - rewrite Hc2. subst clm2. cbn [set_attr ds_coord_names]. now rewrite Hc1.
  - intros v da Hv. specialize (Hv2 v). rewrite Hv in Hv2.
    subst clm2. cbn [set_attr ds_variables] in Hv2.
    destruct (decide (v = "lambert_conformal_conic")) as [-> | Hne].
    { rewrite lookup_delete_eq in Hv2. destruct Hv2. }
    rewrite lookup_delete_ne in Hv2 by congruence.
    specialize (Hv1 v).
    destruct (ds_variables clm1 !! v) as [da1 |]; [| destruct Hv2].
    destruct (ds_variables clm0 !! v) as [da0 |]; [| destruct Hv1].
    exists da0. split; [reflexivity |].
    destruct Hv1 as [Hx1 Hk1], Hv2 as [Hx2 Hk2].
    split; [congruence |]. intros key Hkey.
    rewrite Hk2, Hk1; [reflexivity | |]; cbn in *; tauto.
Qed.

Lemma attach_units_cons kv units clm :
  attach_units (kv :: units) clm
  = attach_units units
      (if bool_decide (is_Some (ds_variables clm !! fst kv))
       then set_var_attr (fst kv) "units" (AttrStr (snd kv)) clm
       else clm).
Proof. reflexivity. Qed.

Lemma attach_units_other units clm k :
  ~ In k (map fst units) ->
  ds_variables (attach_units units clm) !! k = ds_variables clm !! k.
Proof.
  revert clm. induction units as [| kv units IH]; intros clm Hk; [reflexivity |].
  rewrite attach_units_cons. cbn [map In] in Hk.
  rewrite IH by tauto.
  destruct (bool_decide _); [| reflexivity].
  cbn [set_var_attr ds_variables]. apply lookup_alter_ne. tauto.
Qed.

Lemma attach_units_here units clm k u da :
  List.NoDup (map fst units) -> In (k, u) units ->
  ds_variables (attach_units units clm) !! k = Some da ->
  da_attrs da !! "units" = Some (AttrStr u).
Proof.
  revert clm. induction units as [| kv units IH]; intros clm Hnd Hin Hda;
    [contradiction |].
  rewrite attach_units_cons in Hda. cbn [map] in Hnd.
  apply List.NoDup_cons_iff in Hnd as [Hfresh Hnd].
  destruct Hin as [-> | Hin]; [| now apply (IH _ Hnd Hin Hda)].
  cbn [fst snd] in *. rewrite attach_units_other in Hda by exact Hfresh.
  destruct (bool_decide (is_Some (ds_variables clm !! k))) eqn:Hb.
  - cbn [set_var_attr ds_variables] in Hda. rewrite lookup_alter_eq in Hda.
    destruct (ds_variables clm !! k) as [da0 |]; [| discriminate].
    cbn in Hda. injection Hda as <-. apply lookup_insert_eq.
  - apply bool_decide_eq_false in Hb. destruct Hb. eauto.
Qed.

(** X13.  With no PET method, in the dataset handed to the mask every
    variable that the units table of the [Daymet] object names carries that
    unit string as its [units] attribute, and the [units] attribute of any
    other variable is as the merge left it. *)
Theorem post_merge_units (daymet : Daymet) (pet_params : PetParams)
    (clm0 clm : Dataset) :
  post_merge daymet None pet_params clm0 = Return clm ->
  List.NoDup (map fst (daymet_units daymet)) ->
  (forall k u da,
     In (k, u) (daymet_units daymet) ->
     ds_variables clm !! k = Some da ->
     da_attrs da !! "units" = Some (AttrStr u))
  /\ (forall k da,
        ~ In k (map fst (daymet_units daymet)) ->
        ds_variables clm !! k = Some da ->
        exists da0, ds_variables clm0 !! k = Some da0
                    /\ da_attrs da !! "units" = da_attrs da0 !! "units").
Proof.
  intros Hpost Hnd.
  destruct (post_merge_none_inv _ _ _ _ Hpost) as (_ & transform & ->).
  match goal with
  | |- context [propagate_metadata ?ds] => set (clm2 := ds)
  end.
  pose proof (propagate_metadata_only clm2) as (_ & _ & Hv2).
  assert (Hback : forall k da,
             ds_variables (propagate_metadata clm2) !! k = Some da ->
             exists da1,
               ds_variables (attach_units (daymet_units daymet) clm0) !! k = Some da1
               /\ da_attrs da !! "units" = da_attrs da1 !! "units").
  { intros k da Hk. specialize (Hv2 k). rewrite Hk in Hv2.
    subst clm2. cbn [set_attr ds_variables] in Hv2.
    destruct (decide (k = "lambert_conformal_conic")) as [-> | Hne].
    { rewrite lookup_delete_eq in Hv2. destruct Hv2. }
    rewrite lookup_delete_ne in Hv2 by congruence.
    destruct (ds_variables (attach_units (daymet_units daymet) clm0) !! k)
      as [da1 |]; [| destruct Hv2].
    exists da1. split; [reflexivity |]. destruct Hv2 as [_ Hk2].
    apply Hk2. cbn. intros [? | [? | []]]; discriminate. }
  split.
  - intros k u da Hin Hk. destruct (Hback k da Hk) as (da1 & H1 & ->).
    now apply (attach_units_here _ _ _ _ _ Hnd Hin H1).
  - intros k da Hout Hk. destruct (Hback k da Hk) as (da1 & H1 & ->).
    rewrite attach_units_other in H1 by exact Hout. now exists da1.
Qed.

End GridMetadataMore.

Section PointModeMore.
Context `{Collaborators}.

(** X14.  A point request accepted up to the request plan, with at least
    one variable but no date window (an empty list of years, say), gives
    [get_bycoords] a plan of empty groups and nothing to unpack: it raises
    that [ValueError]. *)
Theorem get_bycoords_no_window (scheds : nat -> list nat) (lon lat : Q)
    (dates : Dates) (crs : string) (variables : option (list string))
    (region time_scale : string) (pet : option string) (pet_params : PetParams)
    (ssl : SSL) (daymet : Daymet) (c : Q * Q) (rest : list (Q * Q)) (bbox : Box)
    (code : Z) :
  Daymet_init variables pet time_scale region = Return daymet ->
  check_dates daymet dates = Return tt ->
  dates_itr daymet dates = Return [] ->
  match_crs [(lon, lat)] crs DEF_CRS = Return (c :: rest) ->
  daymet_region_bbox daymet !! region = Some bbox ->
  pt_strictly_inside bbox (Coord (fst c) (snd c)) ->
  daymet_time_codes daymet !! time_scale = Some code ->
  daymet_variables daymet <> [] ->
  plan_bycoords [lon; lat] dates crs variables region time_scale pet
  = Return (c, map (fun _ => []) (daymet_variables daymet))
  /\ get_bycoords scheds [lon; lat] dates crs variables region time_scale pet
                  pet_params ssl
     = Raise (ValueError "not enough values to unpack (expected 2, got 0)").
Proof.
  intros Hinit Hcheck Hdates Hcrs Hbox Hin Hcode Hvars.
  assert (Hplan : plan_bycoords [lon; lat] dates crs variables region time_scale pet
                  = Return (c, map (fun _ => []) (daymet_variables daymet))).
  { unfold plan_bycoords.
    rewrite Hinit, bind_return, Hcheck, bind_return, Hdates, !bind_return.
    rewrite Hcrs, !bind_return. unfold getitem_str. rewrite Hbox, bind_return.
    rewrite (proj2 (in_interior_spec bbox (Coord (fst c) (snd c))) Hin : contains _ (Point _) = true).
    cbn [negb]. rewrite Hcode, bind_return.
    destruct (builders_edge_cases code c (0%Q, 0%Q, 0%Q, 0%Q)
                (daymet_region daymet) (daymet_variables daymet) [])
      as (_ & _ & -> & _).
    reflexivity. }
  split; [exact Hplan |].
  unfold get_bycoords. rewrite Hplan, bind_return.
  destruct (daymet_variables daymet) as [| v vs]; [congruence |].
  reflexivity.
Qed.

End PointModeMore.

Section RequiredColumns.
Context {Cell : Type}.

Lemma has_column_In (tdf : Table Cell) c : has_column tdf c = true <-> In c (labels tdf).
Proof.
  unfold has_column. rewrite existsb_exists. split.
  - intros (x & Hx & Hc). apply String.eqb_eq in Hc. now subst.
  - intros Hc. exists c. split; [exact Hc | apply String.eqb_refl].
Qed.

Lemma filter_label_absent (tdf : Table Cell) c :
  ~ In c (labels tdf) -> List.filter (fun kv => String.eqb (fst kv) c) tdf = [].
Proof.
  induction tdf as [| [k col] tdf IH]; intros Hc; [reflexivity |].
  cbn [List.filter fst]. cbn [labels map In fst] in Hc.
  destruct (String.eqb_spec k c) as [-> | _]; [tauto |]. apply IH. tauto.
Qed.

Lemma filter_label_unique (tdf : Table Cell) c :
  List.NoDup (labels tdf) -> In c (labels tdf) ->
  labels (List.filter (fun kv => String.eqb (fst kv) c) tdf) = [c].
Proof.
  induction tdf as [| [k col] tdf IH]; intros Hnd Hc; [contradiction |].
  cbn [labels map fst] in Hnd, Hc. apply List.NoDup_cons_iff in Hnd as [Hk Hnd].
  cbn [List.filter fst]. destruct (String.eqb_spec k c) as [-> | Hne].
  - cbn [labels map fst]. now rewrite (filter_label_absent tdf c Hk).
  - destruct Hc as [-> | Hc]; [congruence |]. now apply IH.
Qed.

Lemma select_columns_labels (tdf : Table Cell) req_cols :
  List.NoDup (labels tdf) -> Forall (fun c => In c (labels tdf)) req_cols ->
  labels (select_columns tdf req_cols) = req_cols.
Proof.
  intros Hnd Hall. unfold select_columns.
  induction Hall as [| c req Hc _ IH]; [reflexivity |].
  cbn [flat_map]. pose proof (filter_label_unique tdf c Hnd Hc) as E.
  unfold labels in *. rewrite map_app, E. cbn [app]. now rewrite IH.
Qed.

Lemma select_columns_from (tdf : Table Cell) req_cols kv :
  In kv (select_columns tdf req_cols) -> In kv tdf /\ In (fst kv) req_cols.
Proof.
  unfold select_columns. rewrite in_flat_map. intros (c & Hc & Hkv).
  apply filter_In in Hkv as [Hin Heq]. apply String.eqb_eq in Heq.
  split; [exact Hin | now rewrite Heq].
Qed.

(** X15.  [get_target_df]: when the frame has every required column, under
    distinct labels, it returns the required columns alone, in the order
    they are required, each with the data it has in the frame; when some
    are wanting it raises [MissingItems] with exactly the wanting ones, in
    the order they are required. *)
Theorem get_target_df_columns (tdf : Table Cell) (req_cols : list string) :
  (Forall (fun c => In c (labels tdf)) req_cols ->
   List.NoDup (labels tdf) ->
   exists out,
     get_target_df tdf req_cols = Selected out
     /\ labels out = req_cols
     /\ forall kv, In kv out -> In kv tdf)
  /\ (forall c,
        In c req_cols -> ~ In c (labels tdf) ->
        exists missing,
          get_target_df tdf req_cols = RaiseMissingItems missing
          /\ (forall m, In m missing <-> In m req_cols /\ ~ In m (labels tdf))
          /\ sublist missing req_cols).
Proof.
  split.
  - intros Hall Hnd. exists (select_columns tdf req_cols).
    split; [| split].
    + unfold get_target_df.
      replace (List.filter (fun c => negb (has_column tdf c)) req_cols)
        with (@nil string); [reflexivity |].
      symmetry. induction Hall as [| c req Hc _ IH]; [reflexivity |].
      cbn [List.filter]. rewrite (proj2 (has_column_In tdf c) Hc). exact IH.
    + now apply select_columns_labels.
    + intros kv Hkv. now apply select_columns_from in Hkv.
  - intros c Hc Hout.
    exists (List.filter (fun c => negb (has_column tdf c)) req_cols).
    assert (Hmem : forall m,
               In m (List.filter (fun c => negb (has_column tdf c)) req_cols)
               <-> In m req_cols /\ ~ In m (labels tdf)).
    { intros m. rewrite filter_In, negb_true_iff, <- has_column_In.
      destruct (has_column tdf m); intuition congruence. }
    split; [| split].
    + unfold get_target_df.
      destruct (List.filter (fun c => negb (has_column tdf c)) req_cols)
        as [| m ms] eqn:Hf; [| reflexivity].
      exfalso. apply (proj2 (Hmem c)). now split.
    + exact Hmem.
    + clear. induction req_cols as [| r req IH]; [constructor |].
      cbn [List.filter]. destruct (negb (has_column tdf r)).
      * now apply sublist_skip.
      * now apply sublist_cons.
Qed.

End RequiredColumns.

Section GridPlan.
Context `{Collaborators}.

Lemma bind_inv {A B} (c : result A) (k : A -> result B) (b : B) :
  (c ≫= k) = Return b -> exists a, c = Return a /\ k a = Return b.
Proof. destruct c as [a |]; [| discriminate]. intros Hk. now exists a. Qed.

Lemma unzip_requests_inv reqs urls kwds :
  unzip_requests reqs = Return (urls, kwds) ->
  reqs <> [] /\ urls = reqs.*1 /\ kwds = reqs.*2.
Proof.
  destruct reqs as [| rq reqs]; [discriminate |].
  cbn [unzip_requests]. intros [= <- <-]. now split.
Qed.

(** X16.  What [get_bygeom] hands to the transport: whenever its plan is
    built, the geometry intersects the rectangle of the region, and the URLs
    and the keyword dictionaries are the two sides of the same non-empty
    list of requests, built for the code of the time scale and the bounds of
    the geometry, so there are as many of the ones as of the others. *)
Theorem plan_bygeom_wellformed (geometry : GeomArg) (dates : Dates) (crs : string)
    (variables : option (list string)) (region time_scale : string)
    (pet : option string) (daymet : Daymet) (g : Geometry) (urls : list string)
    (kwds : list Kwds) :
  plan_bygeom geometry dates crs variables region time_scale pet
    = Return (daymet, g, urls, kwds) ->
  exists bbox code windows,
    daymet_region_bbox daymet !! region = Some bbox
    /\ intersects g bbox = true
    /\ daymet_time_codes daymet !! time_scale = Some code
    /\ dates_itr daymet dates = Return windows
    /\ _gridded_urls code (bounds g) (daymet_region daymet)
         (daymet_variables daymet) windows
       = Return (zip urls kwds)
    /\ urls <> []
    /\ length urls = length kwds.
Proof.
  unfold plan_bygeom. intros Hplan.
  apply bind_inv in Hplan as (d & _ & Hplan).
  apply bind_inv in Hplan as (u & _ & Hplan).
  apply bind_inv in Hplan as (windows & Hw & Hplan).
  apply bind_inv in Hplan as (g' & _ & Hplan).
  apply bind_inv in Hplan as (bbox & Hbox & Hplan).
  destruct (intersects g' bbox) eqn:Hint; cbn [negb] in Hplan; [| discriminate].
  apply bind_inv in Hplan as (code & Hcode & Hplan).
  apply bind_inv in Hplan as (reqs & Hreqs & Hplan).
  apply bind_inv in Hplan as ([urls' kwds'] & Hunzip & Hplan).
  injection Hplan as -> -> -> ->.
  apply unzip_requests_inv in Hunzip as (Hne & -> & ->).
  exists bbox, code, windows.
  unfold getitem_str in Hbox, Hcode.
  destruct (daymet_region_bbox daymet !! region) as [bbox' |]; [| discriminate].
  destruct (daymet_time_codes daymet !! time_scale) as [code' |]; [| discriminate].
  injection Hbox as ->. injection Hcode as ->.
  rewrite zip_fst_snd.
  repeat split; try assumption; try reflexivity.
  - destruct reqs; [congruence | discriminate].
  - now rewrite !length_fmap.
Qed.

End GridPlan.

Section WorkedProperties.

Lemma get_region_rows_witness :
  get_region sample_rows = Raise (InvalidInputRange (outside_msg "null-island")).
Proof.
  apply (proj2 (get_region_rows sample_rows)
           [("boulder", Point (Coord (-105.27) 40.01))]
           ("null-island", Point (Coord 0 0))
           [("hilo", Point (Coord (-155.09) 19.72))]).
  - reflexivity.
  - constructor; [| constructor]. exists "na". reflexivity.
  - reflexivity.
Defined.

Lemma builders_unknown_code_witness :
  @_coord_urls demo_service 1 point_coord "na" point_variables
               (map year_window point_years)
  = Raise (KeyError (str_int 1))
  /\ @_gridded_urls demo_service 1 grid_bounds "na" point_variables
                    (map year_window point_years)
     = Raise (KeyError (str_int 1)).
Proof.
  apply (proj1 (@builders_unknown_code demo_service 1 point_coord grid_bounds "na"
                  point_variables (map year_window point_years))).
  - reflexivity.
  - discriminate.
  - discriminate.
Defined.

Lemma normalize_label_idempotent_witness :
  normalize_label "tmin (degrees C)" = "tmin (degrees C)"
  /\ normalize_label (normalize_label (raw_label "tmin" "degrees C"))
     = normalized_label "tmin" "degrees C".
Proof.
  split.
  - apply (proj1 normalize_label_idempotent). split; reflexivity.
  - apply (proj2 normalize_label_idempotent); split; reflexivity.
Defined.

Lemma normalize_columns_invariants_witness :
  ~ In "prcp (mm)" (df_columns (normalize_columns raw_frame))
  /\ df_columns (normalize_columns raw_frame) !! 1%nat = Some "tmin (degrees C)".
Proof.
  destruct (normalize_columns_invariants raw_frame) as (Hnever & _ & _ & _ & Hkeep).
  split; [exact Hnever |].
  apply (Hkeep 1%nat (raw_label "tmin" "degrees C")).
  - reflexivity.
  - discriminate.
Defined.

Lemma strftime_date_req_width_witness :
  String.length (strftime DATE_REQ (mkTimestamp 2001 12 31 0 0 0)) = 20%nat.
Proof.
  apply (strftime_date_req_width (mkTimestamp 2001 12 31 0 0 0)).
  unfold calendar_timestamp. cbn. lia.
Defined.

Lemma get_bycoords_input_errors_witness :
  @get_bycoords demo (fun _ => [0; 1]%nat) [-100]%Q (YearList point_years)
                "epsg:4326" (Some point_variables) "na" "daily" None None None
  = Raise (InvalidInputType "coords" "tuple" "(lon, lat)")
  /\ @get_bycoords demo (fun _ => [0; 1]%nat) [-136.8989; 40]%Q
                   (YearList point_years) "epsg:4326" (Some point_variables)
                   "na" "daily" None None None
     = Raise (InvalidInputRange
                (daymet_invalid_bbox_msg (demo_daymet (Some point_variables) "na"))).
Proof.
  split.
  - apply (proj1 (@get_bycoords_input_errors demo (fun _ => [0; 1]%nat) [-100]%Q
                    (YearList point_years) "epsg:4326" (Some point_variables)
                    "na" "daily" None None None
                    (demo_daymet (Some point_variables) "na")
                    (map year_window point_years) eq_refl eq_refl eq_refl)).
    cbn. lia.
  - apply (proj2 (@get_bycoords_input_errors demo (fun _ => [0; 1]%nat)
                    [-136.8989; 40]%Q
                    (YearList point_years) "epsg:4326" (Some point_variables)
                    "na" "daily" None None None
                    (demo_daymet (Some point_variables) "na")
                    (map year_window point_years) eq_refl eq_refl eq_refl)
             (-136.8989)%Q 40%Q ((-136.8989)%Q, 40%Q) [] na_box).
    + reflexivity.
    + reflexivity.
    + reflexivity.
    + unfold pt_strictly_inside. cbn. lra.
Defined.

Lemma get_bygeom_input_errors_witness :
  @get_bygeom demo [0]%nat (GeomBounds (10, 10, 11, 11)%Q) (YearList [2010%Z])
              "epsg:4326" (Some ["prcp"]) "na" "daily" None None None
  = Raise (InvalidInputRange
             (daymet_invalid_bbox_msg (demo_daymet (Some ["prcp"]) "na")))
  /\ @get_bygeom demo [0]%nat (GeomBounds grid_bounds) (YearList [])
                 "epsg:4326" (Some ["prcp"]) "na" "daily" None None None
     = Raise (ValueError "not enough values to unpack (expected 2, got 0)").
Proof.
  split.
  - apply (proj1 (@get_bygeom_input_errors demo [0]%nat
                    (GeomBounds (10, 10, 11, 11)%Q) (YearList [2010%Z])
                    "epsg:4326" (Some ["prcp"]) "na" "daily" None None None
                    (demo_daymet (Some ["prcp"]) "na") [year_window 2010]
                    (demo_polygon (GeomBounds (10, 10, 11, 11)%Q)) na_box
                    eq_refl eq_refl eq_refl eq_refl eq_refl)).
    reflexivity.
  - apply (proj2 (@get_bygeom_input_errors demo [0]%nat
                    (GeomBounds grid_bounds) (YearList [])
                    "epsg:4326" (Some ["prcp"]) "na" "daily" None None None
                    (demo_daymet (Some ["prcp"]) "na") []
                    (demo_polygon (GeomBounds grid_bounds)) na_box
                    eq_refl eq_refl eq_refl eq_refl eq_refl) 1840%Z).
    + reflexivity.
    + reflexivity.
    + now right.
Defined.

Lemma get_bygeom_error_passthrough_witness :
  @get_bygeom demo [0]%nat (GeomBounds grid_bounds) (YearList [2010%Z])
              "epsg:4326" (Some grid_variables) "na" "daily" None None None
  = Raise (OtherError "TimeoutError").
Proof.
  apply (proj1 (@get_bygeom_error_passthrough demo [0]%nat
                  (GeomBounds grid_bounds) (YearList [2010%Z]) "epsg:4326"
                  (Some grid_variables) "na" "daily" None None None
                  (demo_daymet (Some grid_variables) "na")
                  (demo_polygon (GeomBounds grid_bounds))
                  (grid_plan.*1) (grid_plan.*2) eq_refl)
           (OtherError "TimeoutError")).
  - discriminate.
  - left. reflexivity.
Defined.

Lemma get_bygeom_missing_grid_mapping_witness :
  @get_bygeom demo_bare [0]%nat (GeomBounds grid_bounds) (YearList [2010%Z])
              "epsg:4326" (Some ["prcp"]) "na" "daily" None None None
  = Raise (ValueError
             "One or more of the specified variables cannot be found in this dataset").
Proof.
  apply (@get_bygeom_missing_grid_mapping demo_bare [0]%nat
           (GeomBounds grid_bounds) (YearList [2010%Z]) "epsg:4326"
           (Some ["prcp"]) "na" "daily" None None None
           (demo_daymet (Some ["prcp"]) "na")
           (demo_polygon (GeomBounds grid_bounds))
           (grid_plan_prcp.*1) (grid_plan_prcp.*2) bare_dataset).
  - reflexivity.
  - reflexivity.
  - reflexivity.
Defined.

Lemma post_merge_metadata_only_witness :
  dom (ds_variables demo_normalized)
  = dom (ds_variables demo_dataset) ∖ {["lambert_conformal_conic"]}.
Proof.
  apply (@post_merge_metadata_only demo (demo_daymet None "na") None
           demo_dataset demo_normalized).
  reflexivity.
Defined.

Lemma post_merge_units_witness :
  exists da,
    ds_variables demo_normalized !! "prcp" = Some da
    /\ da_attrs da !! "units" = Some (AttrStr "mm/day").
Proof.
  destruct (ds_variables demo_normalized !! "prcp") as [da |] eqn:Hda.
  - exists da. split; [reflexivity |].
    apply (proj1 (@post_merge_units demo (demo_daymet None "na") None
                    demo_dataset demo_normalized eq_refl
                    ltac:(cbn; repeat constructor; cbn; intuition discriminate))
             "prcp" "mm/day" da).
    + cbn. now left.
    + exact Hda.
  - exfalso. assert (Hsome : is_Some (ds_variables demo_normalized !! "prcp"))
      by (eexists; reflexivity).
    rewrite Hda in Hsome. now destruct Hsome.
Defined.

Lemma get_bycoords_no_window_witness :
  @get_bycoords demo (fun _ => [0; 1]%nat) [-100; 40]%Q (YearList [])
                "epsg:4326" (Some point_variables) "na" "daily" None None None
  = Raise (ValueError "not enough values to unpack (expected 2, got 0)").
Proof.
  apply (@get_bycoords_no_window demo (fun _ => [0; 1]%nat) (-100)%Q 40%Q
           (YearList []) "epsg:4326" (Some point_variables) "na" "daily"
           None None None (demo_daymet (Some point_variables) "na")
           ((-100)%Q, 40%Q) [] na_box 1840%Z).
  - reflexivity.
  - reflexivity.
  - reflexivity.
  - reflexivity.
  - reflexivity.
  - unfold pt_strictly_inside. cbn. lra.
  - reflexivity.
  - discriminate.
Defined.

Lemma get_target_df_columns_witness :
  exists out,
    get_target_df sample_table point_columns = Selected out
    /\ labels out = point_columns.
Proof.
  destruct (proj1 (get_target_df_columns sample_table point_columns))
    as (out & Hsel & Hlab & _).
  - unfold point_columns, sample_table. repeat constructor; cbn; tauto.
  - unfold sample_table. cbn. repeat constructor; cbn; intuition discriminate.
  - exists out. now split.
Defined.

Lemma plan_bygeom_wellformed_witness :
  grid_plan.*1 <> [] /\ length (grid_plan.*1) = length (grid_plan.*2).
Proof.
  destruct (@plan_bygeom_wellformed demo (GeomBounds grid_bounds)
              (YearList [2010%Z]) "epsg:4326" (Some grid_variables) "na" "daily"
              None (demo_daymet (Some grid_variables) "na")
              (demo_polygon (GeomBounds grid_bounds))
              (grid_plan.*1) (grid_plan.*2) eq_refl)
    as (bbox & code & windows & _ & _ & _ & _ & _ & Hne & Hlen).
  now split.
Defined.

End WorkedProperties.
